(** * Interactive service setup step: lib/cli/interactive-setup/service.js

    A shallow embedding of the [service] step of the interactive setup
    (its two exported members [isApplicable] and [run], with the helpers
    [isValidServiceName], [projectTypeChoice], [projectNameInput] and
    [resolveProjectNameInput]) and the properties of it.

    Modelling choices.
    - A JavaScript string is the [string] of the bytes of its UTF-8
      encoding (the literals of this file are written in UTF-8 too), so a
      character outside ASCII takes two to four bytes.
    - The options object is a finite map from flag names to string values,
      so [Object.keys] is the list of keys of the map (a JavaScript object
      has no duplicate keys, and only the number of keys that satisfy a test
      is ever observed).
    - An absent property reads as [None]; truthiness of a string-valued
      property is: present and not the empty string.
    - A thrown value is a record with the three fields the code inspects:
      [constructor.name], [code] and [message].
    - Asynchronous code is sequential here (each [await] waits for its
      result), so [run] is a computation in a state-and-exception monad over
      the session context, the file system and a log of the interactions with
      the outside (prompts, standard output, file system calls, collaborators).
    - The collaborators required from other modules (template download,
      local template copy, subprocess runner, configuration loading), Node's
      [path.join], [process.cwd], [chalk] and the user at the terminal are
      fields of the environment record [Env]. *)

From Stdlib Require Import Ascii.
From stdpp Require Import gmap strings list.

Open Scope string_scope.
Open Scope list_scope.
Open Scope stdpp_scope.

(** ** JavaScript values used by the module *)

Definition nl : string := String "010"%char EmptyString.
Definition dq : string := String "034"%char EmptyString.

(** [Array.prototype.join] on an array of strings. *)
Fixpoint jsJoin (sep : string) (l : list string) : string :=
  match l with
  | [] => EmptyString
  | [x] => x
  | x :: rest => x +:+ sep +:+ jsJoin sep rest
  end.

(** [String.prototype.slice] with a single, non-negative argument. *)
Definition jsSlice (start : nat) (s : string) : string :=
  String.substring start (String.length s - start) s.

(** What [String.prototype.trim] strips at both ends: the white space and
    the line terminators of ECMAScript, each in its UTF-8 encoding.
    One byte: U+0009 to U+000D and U+0020. *)
Definition isWhiteSpace1 (c : ascii) : bool :=
  let n := nat_of_ascii c in
  (((9 <=? n) && (n <=? 13)) || (n =? 32))%nat.

(** Two bytes: U+00A0, the no-break space. *)
Definition isWhiteSpace2 (c1 c2 : ascii) : bool :=
  ((nat_of_ascii c1 =? 194) && (nat_of_ascii c2 =? 160))%nat.

(** Three bytes: U+1680; U+2000 to U+200A, U+2028, U+2029 and U+202F;
    U+205F; U+3000; U+FEFF. *)
Definition isWhiteSpace3 (c1 c2 c3 : ascii) : bool :=
  let n1 := nat_of_ascii c1 in
  let n2 := nat_of_ascii c2 in
  let n3 := nat_of_ascii c3 in
  (((n1 =? 225) && (n2 =? 154) && (n3 =? 128))
   || ((n1 =? 226) && (n2 =? 128)
       && (((128 <=? n3) && (n3 <=? 138)) || (n3 =? 168) || (n3 =? 169) || (n3 =? 175)))
   || ((n1 =? 226) && (n2 =? 129) && (n3 =? 159))
   || ((n1 =? 227) && (n2 =? 128) && (n3 =? 128))
   || ((n1 =? 239) && (n2 =? 187) && (n3 =? 191)))%nat.

Fixpoint trimStart (s : string) : string :=
  match s with
  | EmptyString => EmptyString
  | String c1 rest1 =>
      if isWhiteSpace1 c1 then trimStart rest1
      else
        match rest1 with
        | EmptyString => s
        | String c2 rest2 =>
            if isWhiteSpace2 c1 c2 then trimStart rest2
            else
              match rest2 with
              | EmptyString => s
              | String c3 rest3 =>
                  if isWhiteSpace3 c1 c2 c3 then trimStart rest3 else s
              end
        end
  end.

(** The end is trimmed byte by byte from the front: a string made of
    white space only becomes empty, any other keeps its first byte. *)
Fixpoint trimEnd (s : string) : string :=
  match s with
  | EmptyString => EmptyString
  | String c rest =>
      match trimStart (String c rest) with
      | EmptyString => EmptyString
      | _ => String c (trimEnd rest)
      end
  end.

Definition trim (s : string) : string := trimEnd (trimStart s).

(** Truthiness of a property that is absent or holds a string. *)
Definition truthy (v : option string) : bool :=
  match v with
  | Some (String _ _) => true
  | _ => false
  end.

(** [v || d] for such a property and a string [d]. *)
Definition orElse (v : option string) (d : string) : string :=
  match v with
  | Some (String c rest) => String c rest
  | _ => d
  end.

(** [Object.keys] of an object used as a map. *)
Definition objectKeys {V : Type} (o : gmap string V) : list string :=
  (map_to_list o).*1.

(** [new Set([...]).has(key)] for a set written as the array of its
    members. *)
Definition setHas (members : list string) (key : string) : bool :=
  bool_decide (key ∈ members).

(** ** Errors *)

Record JsError : Type := mkJsError {
  constructorName : string;
  code : option string;
  message : string
}.

(** [new ServerlessError(message, code)]. *)
Definition ServerlessError (msg c : string) : JsError :=
  {| constructorName := "ServerlessError"; code := Some c; message := msg |}.

#[global] Instance JsError_eq_dec : EqDecision JsError.
Proof. solve_decision. Defined.

(** How a call ends: it returns, it throws, or it never resumes (a prompt
    the user does not answer acceptably). *)
Inductive Outcome (A : Type) : Type :=
  | Returned (a : A)
  | Thrown (e : JsError)
  | Pending.
Arguments Returned {A} a.
Arguments Thrown {A} e.
Arguments Pending {A}.

(** How a collaborator's promise settles. *)
Inductive Settled (A : Type) : Type :=
  | Resolved (a : A)
  | Rejected (e : JsError).
Arguments Resolved {A} a.
Arguments Rejected {A} e.

(** ** [isValidServiceName]: the pattern [^[a-zA-Z][a-zA-Z0-9-]{0,100}$] *)

Definition isLetter (c : ascii) : bool :=
  let n := nat_of_ascii c in
  (((65 <=? n) && (n <=? 90)) || ((97 <=? n) && (n <=? 122)))%nat.

Definition isDigit (c : ascii) : bool :=
  let n := nat_of_ascii c in ((48 <=? n) && (n <=? 57))%nat.

(** The class [[a-zA-Z0-9-]]. *)
Definition isNameChar (c : ascii) : bool :=
  isLetter c || isDigit c || (nat_of_ascii c =? 45)%nat.

Fixpoint allChars (p : ascii -> bool) (s : string) : bool :=
  match s with
  | EmptyString => true
  | String c rest => p c && allChars p rest
  end.

Definition isValidServiceName (s : string) : bool :=
  match s with
  | EmptyString => false
  | String c rest =>
      isLetter c && (String.length rest <=? 100)%nat && allChars isNameChar rest
  end.

(** ** Constants of the module *)

(** [initializeProjectChoices], as pairs of [name] and [value]. *)
Definition initializeProjectChoices : list (string * string) :=
  [ ("AWS - Node.js - Empty", "aws-node");
    ("AWS - Node.js - REST API", "aws-node-rest-api");
    ("AWS - Node.js - Scheduled Task", "aws-node-scheduled-cron");
    ("AWS - Node.js - SQS Worker", "aws-node-sqs-worker");
    ("AWS - Node.js - Express API", "aws-node-express-api");
    ("AWS - Node.js - Express API with DynamoDB", "aws-node-express-dynamodb-api");
    ("AWS - Python - Empty", "aws-python");
    ("AWS - Python - REST API", "aws-python-rest-api");
    ("AWS - Python - Scheduled Task", "aws-python-scheduled-cron");
    ("AWS - Python - SQS Worker", "aws-python-sqs-worker");
    ("AWS - Python - Flask API", "aws-python-flask-api");
    ("AWS - Python - Flask API with DynamoDB", "aws-python-flask-dynamodb-api");
    ("Other", "other") ].

Definition INVALID_PROJECT_NAME_MESSAGE : string :=
  "Project name is not valid." +:+ nl +:+
  "   - It should only contain alphanumeric and hyphens." +:+ nl +:+
  "   - It should start with an alphabetic character." +:+ nl +:+
  "   - Shouldn't exceed 128 characters".

Definition notApplicableOptions : list string :=
  ["name"; "template-path"; "template"; "template-url"].

Definition templateOptions : list string :=
  ["template-path"; "template"; "template-url"].

(** [opts.map((opt) => `"--${opt}"`).join(', ')]. *)
Definition quotedFlags (opts : list string) : string :=
  jsJoin ", " (map (λ opt, dq +:+ "--" +:+ opt +:+ dq) opts).

Definition NOT_APPLICABLE_MESSAGE : string :=
  "Cannot setup a new service when being in context of another service (" +:+
  quotedFlags notApplicableOptions +:+ " options cannot be applied)".

Definition MULTIPLE_TEMPLATE_OPTIONS_MESSAGE : string :=
  "You can provide only one of: " +:+ quotedFlags templateOptions +:+ " options".

Definition OTHER_HINT : string :=
  nl +:+ "Run “serverless create --help” to view available templates and create a new project " +:+
  "from one of those templates." +:+ nl.

Definition INVALID_TEMPLATE_MESSAGE : string :=
  "Could not find provided template. Ensure that the template provided with " +:+
  dq +:+ "--template" +:+ dq +:+ " exists.".

Definition invalidTemplateUrlMessage (underlying : string) : string :=
  "Could not download template from provided url. Ensure that the template provided with " +:+
  dq +:+ "--template-url" +:+ dq +:+ " exists: " +:+ underlying.

Definition templateDownloadFailedMessage (underlying : string) : string :=
  "Could not download template. Ensure that you are using the latest version of Serverless Framework: "
  +:+ underlying.

Definition NPM_MISSING_WARNING : string :=
  "Cannot install dependencies as " +:+ dq +:+ "npm" +:+ dq +:+
  " installation could not be found. Please install npm and run " +:+
  dq +:+ "npm install" +:+ dq +:+ " in directory of created service.".

(** The status lines of [run]. *)
Definition downloadingFromUrlLine (templateUrl : string) : string :=
  nl +:+ "Downloading template from provided url: " +:+ templateUrl +:+ "..." +:+ nl.

Definition downloadingLine (projectType : string) : string :=
  nl +:+ "Downloading " +:+ dq +:+ projectType +:+ dq +:+ " template..." +:+ nl.

Definition installingLine (projectName : string) : string :=
  nl +:+ "Installing dependencies with " +:+ dq +:+ "npm" +:+ dq +:+ " in " +:+
  dq +:+ projectName +:+ dq +:+ " folder." +:+ nl.

Definition createdLine (projectName : string) : string :=
  "Project successfully created in '" +:+ projectName +:+ "' folder.".

(** The error thrown for an install that fails. *)
Definition installFailed (err : JsError) : JsError :=
  ServerlessError ("Cannot install dependencies: " +:+ message err) "DEPENDENCIES_INSTALL_FAILED".

(** ** The session, the outside world and the monad of [run] *)

Section InteractiveSetup.

(** The parsed configuration is produced and consumed by collaborators
    only; this module stores it. *)
Variable Configuration : Type.

(** The session context: the fields this module reads or writes. *)
Record Context : Type := mkContext {
  cwd : option string;
  options : gmap string string;
  serviceDir : option string;
  configurationFilename : option string;
  configuration : option Configuration
}.

(** The file system, as far as [fsp.access] and [fsp.unlink] see it: the
    set of paths that exist. *)
Definition FileSystem : Type := gset string.

(** One entry of the log per interaction with the outside. *)
Inductive Event : Type :=
  | EvPrompt (name : string)
  | EvPromptRejected (name reason : string)
  | EvStdout (text : string)
  | EvAccess (path : string)
  | EvUnlink (path : string)
  | EvCreateFromLocalTemplate (templatePath projectDir projectName : string)
  | EvDownloadTemplateFromRepo (url : string) (templateName : option string)
      (projectName : string)
  | EvSpawn (command : string) (args : list string) (dir : string)
  | EvResolveConfigurationPath (dir : string)
  | EvReadConfiguration (path : string)
  | EvResolveVariables.

Record State : Type := mkState {
  context : Context;
  fileSystem : FileSystem;
  events : list Event
}.

(** One press of Enter at an input prompt: the line that [readline]
    emits, and whether the user pressed any other key since the prompt
    appeared or since the last press of Enter. *)
Record Submission : Type := mkSubmission {
  keyPressed : bool;
  line : string
}.

(** What the module requires and what surrounds it. A collaborator that
    works on the disk takes the file system and gives it back, also when it
    fails. [userSelects] is the position of the entry the user picks in a
    list prompt, [userTypes] what the user submits, in order, to an input
    prompt; both are indexed by the name of the prompt.
    [npmCommandDeferred] is the command the deferred value resolves to.
    [resolveVariables] is given the context and yields the configuration it
    leaves in it. *)
Record Env : Type := mkEnv {
  processCwd : string;
  pathJoin : string → string → string;
  chalkYellow : string → string;
  chalkGreen : string → string;
  userSelects : string → nat;
  userTypes : string → list Submission;
  createFromLocalTemplate :
    string → string → string → FileSystem → Settled unit * FileSystem;
  downloadTemplateFromRepo :
    string → option string → string → FileSystem → Settled unit * FileSystem;
  npmCommandDeferred : string;
  spawn : string → list string → string → FileSystem → Settled unit * FileSystem;
  resolveConfigurationPath : string → FileSystem → Settled string;
  readConfiguration : string → FileSystem → Settled Configuration;
  resolveVariables : Context → FileSystem → Settled Configuration
}.

Variable env : Env.

Definition M (A : Type) : Type := State → Outcome A * State.

Definition ret {A : Type} (a : A) : M A := λ st, (Returned a, st).

Definition throw {A : Type} (e : JsError) : M A := λ st, (Thrown e, st).

Definition pending {A : Type} : M A := λ st, (Pending, st).

Definition bind {A B : Type} (m : M A) (k : A → M B) : M B :=
  λ st,
    match m st with
    | (Returned a, st') => k a st'
    | (Thrown e, st') => (Thrown e, st')
    | (Pending, st') => (Pending, st')
    end.

(** [try { m } catch (err) { handler err }]. *)
Definition tryCatch {A : Type} (m : M A) (handler : JsError → M A) : M A :=
  λ st,
    match m st with
    | (Thrown e, st') => handler e st'
    | r => r
    end.

Notation "'let*' x ':=' m 'in' k" := (bind m (λ x, k))
  (at level 10, x name, m at level 100, k at level 200, only parsing).

Definition log (e : Event) (st : State) : State :=
  {| context := context st; fileSystem := fileSystem st; events := events st ++ [e] |}.

Definition emit (e : Event) : M unit := λ st, (Returned tt, log e st).

Definition getContext : M Context := λ st, (Returned (context st), st).

Definition setContext (f : Context → Context) : M unit :=
  λ st,
    (Returned tt,
     {| context := f (context st); fileSystem := fileSystem st; events := events st |}).

Definition setFileSystem (fs : FileSystem) (st : State) : State :=
  {| context := context st; fileSystem := fs; events := events st |}.

Definition settle {A : Type} (r : Settled A) : Outcome A :=
  match r with
  | Resolved a => Returned a
  | Rejected e => Thrown e
  end.

(** A call of a collaborator that works on the disk. *)
Definition call (e : Event) (f : FileSystem → Settled unit * FileSystem) : M unit :=
  λ st,
    let '(r, fs) := f (fileSystem st) in
    (settle r, setFileSystem fs (log e st)).

(** A call of a collaborator that reads the disk. *)
Definition query {A : Type} (e : Event) (f : FileSystem → Settled A) : M A :=
  λ st, (settle (f (fileSystem st)), log e st).

(** [process.stdout.write]. *)
Definition stdoutWrite (text : string) : M unit := emit (EvStdout text).

(** The error of a file system call on a path that does not exist. *)
Definition noEntry (syscall path : string) : JsError :=
  {| constructorName := "Error";
     code := Some "ENOENT";
     message := "ENOENT: no such file or directory, " +:+ syscall +:+ " '" +:+ path +:+ "'" |}.

(** [fsp.access]. *)
Definition fspAccess (path : string) : M unit :=
  let* _ := emit (EvAccess path) in
  λ st,
    if bool_decide (path ∈ fileSystem st) then (Returned tt, st)
    else (Thrown (noEntry "access" path), st).

(** [fsp.unlink]. *)
Definition fspUnlink (path : string) : M unit :=
  let* _ := emit (EvUnlink path) in
  λ st,
    if bool_decide (path ∈ fileSystem st)
    then (Returned tt, setFileSystem (fileSystem st ∖ {[path]}) st)
    else (Thrown (noEntry "unlink" path), st).

(** ** The prompts of [inquirer] *)

(** A prompt of type [list]: resolves to the value of the entry the user
    picks; the cursor starts on the first entry. *)
Definition picked (name : string) (choices : list string) : string :=
  nth (userSelects env name) choices (hd EmptyString choices).

Definition listPrompt (name : string) (choices : list string) : M string :=
  let* _ := emit (EvPrompt name) in
  ret (picked name choices).

(** What a [validate] callback returns: [true], or the text shown to the
    user before the prompt waits again. *)
Inductive Validation : Type :=
  | Accepted
  | Refused (reason : string).

(** A prompt of type [input]. A key pressed clears the default, for
    good; an empty line stands for the default that is left (the empty
    string when there is none); each submitted line goes through [validate],
    and the prompt resolves to the first one accepted. It stays pending when
    the user submits no acceptable line. *)
Fixpoint inputAttempts (name : string) (default : option string)
    (validate : string → M Validation) (submissions : list Submission) : M string :=
  match submissions with
  | [] => pending
  | submission :: rest =>
      let default := if keyPressed submission then None else default in
      let input :=
        match line submission with
        | EmptyString => from_option id EmptyString default
        | _ => line submission
        end in
      let* v := validate input in
      match v with
      | Accepted => ret input
      | Refused reason =>
          let* _ := emit (EvPromptRejected name reason) in
          inputAttempts name default validate rest
      end
  end.

Definition inputPrompt (name : string) (default : option string)
    (validate : string → M Validation) : M string :=
  let* _ := emit (EvPrompt name) in
  inputAttempts name default validate (userTypes env name).

(** ** The helpers of the module *)

Definition projectTypeChoice : M string :=
  listPrompt "projectType" (map snd initializeProjectChoices).

Definition pathTakenMessage (name : string) : string :=
  "Path " +:+ name +:+ " is already taken".

(** The [validate] callback of [projectNameInput]. *)
Definition validateProjectName (workingDir : string) (input : string) : M Validation :=
  let input := trim input in
  if negb (isValidServiceName input) then ret (Refused INVALID_PROJECT_NAME_MESSAGE)
  else
    tryCatch
      (let* _ := fspAccess (pathJoin env workingDir input) in
       ret (Refused (pathTakenMessage input)))
      (λ _, ret Accepted).

Definition projectNameInput (workingDir : string) (projectType : option string) : M string :=
  let* projectName :=
    inputPrompt "projectName"
      (if truthy projectType
       then Some (from_option id EmptyString projectType +:+ "-project")
       else None)
      (validateProjectName workingDir) in
  ret (trim projectName).

Definition resolveProjectNameInput (opts : gmap string string) (workingDir : string)
    (projectType : option string) : M string :=
  if truthy (opts !! "name") then
    let name := from_option id EmptyString (opts !! "name") in
    if negb (isValidServiceName name)
    then throw (ServerlessError INVALID_PROJECT_NAME_MESSAGE "INVALID_PROJECT_NAME")
    else
      let* alreadyTaken :=
        tryCatch (let* _ := fspAccess (pathJoin env workingDir name) in ret true)
          (λ _, ret false) in
      if (alreadyTaken : bool)
      then throw (ServerlessError (pathTakenMessage name) "TARGET_FOLDER_ALREADY_EXISTS")
      else ret name
  else projectNameInput workingDir projectType.

(** ** [isApplicable] *)

Definition isApplicable (ctx : Context) : Outcome bool :=
  if truthy (serviceDir ctx)
     && existsb (setHas notApplicableOptions) (objectKeys (options ctx))
  then Thrown (ServerlessError NOT_APPLICABLE_MESSAGE "NOT_APPLICABLE_SERVICE_OPTIONS")
  else Returned (negb (truthy (serviceDir ctx))).

(** ** [run] *)

(** The value of a property that has been tested truthy. *)
Definition prop (opts : gmap string string) (key : string) : string :=
  from_option id EmptyString (opts !! key).

(** The [catch] clause of the download from a given url. *)
Definition onUrlDownloadError {A : Type} (err : JsError) : M A :=
  if negb (String.eqb (constructorName err) "ServerlessError") then throw err
  else
    throw (ServerlessError (invalidTemplateUrlMessage (message err)) "INVALID_TEMPLATE_URL").

(** The [catch] clause of the download of a named template. *)
Definition onNamedDownloadError {A : Type} (opts : gmap string string) (err : JsError) : M A :=
  if bool_decide (code err = Some "ENOENT") && truthy (opts !! "template")
  then throw (ServerlessError INVALID_TEMPLATE_MESSAGE "INVALID_TEMPLATE")
  else if negb (String.eqb (constructorName err) "ServerlessError") then throw err
  else
    throw
      (ServerlessError (templateDownloadFailedMessage (message err)) "TEMPLATE_DOWNLOAD_FAILED").

Definition callDownload (url : string) (templateName : option string) (projectName : string) :
    M unit :=
  call (EvDownloadTemplateFromRepo url templateName projectName)
    (downloadTemplateFromRepo env url templateName projectName).

Definition examplesUrl (projectType : string) : string :=
  "https://github.com/serverless/examples/tree/master/" +:+ projectType.

(** The confirmation at the start of [run], asked when none of the four
    options is truthy; [false] where [run] returns at once. *)
Definition confirmCreation (opts : gmap string string) : M bool :=
  if negb (truthy (opts !! "name")) && negb (truthy (opts !! "template-path"))
     && negb (truthy (opts !! "template")) && negb (truthy (opts !! "template-url"))
  then
    let* isConfirmed := listPrompt "shouldCreateNewProject" ["Yes"; "No"] in
    ret (String.eqb isConfirmed "Yes")
  else ret true.

(** [let projectType] of the last branch: the [template] option, or the
    picker; [None] where [run] writes the hint and returns. *)
Definition chooseProjectType (opts : gmap string string) : M (option string) :=
  if truthy (opts !! "template") then ret (Some (prop opts "template"))
  else
    let* projectType := projectTypeChoice in
    if String.eqb projectType "other"
    then let* _ := stdoutWrite OTHER_HINT in ret None
    else ret (Some projectType).

(** The template acquisition of [run], from [let projectDir] to the end of
    the three-way conditional. It yields [projectDir] and [projectName], or
    [None] where [run] returns early. *)
Definition acquireTemplate (opts : gmap string string) (workingDir : string) :
    M (option (string * string)) :=
  if truthy (opts !! "template-path") then
    let* projectName := resolveProjectNameInput opts workingDir None in
    let projectDir := pathJoin env workingDir projectName in
    let* _ :=
      call (EvCreateFromLocalTemplate (prop opts "template-path") projectDir projectName)
        (createFromLocalTemplate env (prop opts "template-path") projectDir projectName) in
    ret (Some (projectDir, projectName))
  else if truthy (opts !! "template-url") then
    let* projectName := resolveProjectNameInput opts workingDir None in
    let projectDir := pathJoin env workingDir projectName in
    let templateUrl := prop opts "template-url" in
    let* _ := stdoutWrite (downloadingFromUrlLine templateUrl) in
    let* _ := tryCatch (callDownload templateUrl None projectName) onUrlDownloadError in
    ret (Some (projectDir, projectName))
  else
    let* chosen := chooseProjectType opts in
    match chosen with
    | None => ret None
    | Some projectType =>
        let* projectName := resolveProjectNameInput opts workingDir (Some projectType) in
        let projectDir := pathJoin env workingDir projectName in
        let templateUrl := examplesUrl projectType in
        let* _ := stdoutWrite (downloadingLine projectType) in
        let* _ :=
          tryCatch (callDownload templateUrl (Some projectType) projectName)
            (onNamedDownloadError opts) in
        ret (Some (projectDir, projectName))
    end.

(** The dependency installation of [run], from [let hasPackageJson] to
    the end of [if (hasPackageJson)]. *)
Definition installDependencies (projectDir projectName : string) : M unit :=
  let* hasPackageJson :=
    tryCatch (let* _ := fspAccess (pathJoin env projectDir "package.json") in ret true)
      (λ _, ret false) in
  if (hasPackageJson : bool) then
    let* _ := stdoutWrite (installingLine projectName) in
    let npmCommand := npmCommandDeferred env in
    tryCatch
      (call (EvSpawn npmCommand ["install"] projectDir)
         (spawn env npmCommand ["install"] projectDir))
      (λ err,
         if bool_decide (code err = Some "ENOENT")
         then stdoutWrite (nl +:+ chalkYellow env NPM_MISSING_WARNING +:+ nl)
         else throw (installFailed err))
  else ret tt.

(** The rest of [run]: the marker file is removed, the success line is
    written and the context is filled in. *)
Definition finalize (projectDir projectName : string) : M unit :=
  let* _ :=
    tryCatch (fspUnlink (pathJoin env projectDir "serverless.template.yml")) (λ _, ret tt) in
  let* _ := stdoutWrite (nl +:+ chalkGreen env (createdLine projectName) +:+ nl) in
  let* _ :=
    setContext (λ c,
      {| cwd := cwd c; options := options c; serviceDir := Some projectDir;
         configurationFilename := configurationFilename c;
         configuration := configuration c |}) in
  let* configurationPath :=
    query (EvResolveConfigurationPath projectDir) (resolveConfigurationPath env projectDir) in
  let* _ :=
    setContext (λ c,
      {| cwd := cwd c; options := options c; serviceDir := serviceDir c;
         configurationFilename := Some (jsSlice (String.length projectDir + 1) configurationPath);
         configuration := configuration c |}) in
  let* loaded :=
    query (EvReadConfiguration configurationPath) (readConfiguration env configurationPath) in
  let* _ :=
    setContext (λ c,
      {| cwd := cwd c; options := options c; serviceDir := serviceDir c;
         configurationFilename := configurationFilename c;
         configuration := Some loaded |}) in
  let* current := getContext in
  let* resolved := query EvResolveVariables (resolveVariables env current) in
  setContext (λ c,
    {| cwd := cwd c; options := options c; serviceDir := serviceDir c;
       configurationFilename := configurationFilename c;
       configuration := Some resolved |}).

Definition run : M unit :=
  let* ctx := getContext in
  let opts := options ctx in
  let workingDir := orElse (cwd ctx) (processCwd env) in
  if (1 <? length (filter (λ key, setHas templateOptions key) (objectKeys opts)))%nat
  then throw (ServerlessError MULTIPLE_TEMPLATE_OPTIONS_MESSAGE "MULTIPLE_TEMPLATE_OPTIONS_PROVIDED")
  else
    let* proceed := confirmCreation opts in
    if negb proceed then ret tt
    else
      let* acquired := acquireTemplate opts workingDir in
      match acquired with
      | None => ret tt
      | Some (projectDir, projectName) =>
          let* _ := installDependencies projectDir projectName in
          finalize projectDir projectName
      end.

End InteractiveSetup.

Arguments mkContext {Configuration}.
Arguments cwd {Configuration}.
Arguments options {Configuration}.
Arguments serviceDir {Configuration}.
Arguments configurationFilename {Configuration}.
Arguments configuration {Configuration}.
Arguments mkState {Configuration}.
Arguments context {Configuration}.
Arguments fileSystem {Configuration}.
Arguments events {Configuration}.
Arguments mkEnv {Configuration}.
Arguments processCwd {Configuration}.
Arguments pathJoin {Configuration}.
Arguments chalkYellow {Configuration}.
Arguments chalkGreen {Configuration}.
Arguments userSelects {Configuration}.
Arguments userTypes {Configuration}.
Arguments createFromLocalTemplate {Configuration}.
Arguments downloadTemplateFromRepo {Configuration}.
Arguments npmCommandDeferred {Configuration}.
Arguments spawn {Configuration}.
Arguments resolveConfigurationPath {Configuration}.
Arguments readConfiguration {Configuration}.
Arguments resolveVariables {Configuration}.
Arguments ret {Configuration A}.
Arguments throw {Configuration A}.
Arguments pending {Configuration A}.
Arguments bind {Configuration A B}.
Arguments tryCatch {Configuration A}.
Arguments log {Configuration}.
Arguments emit {Configuration}.
Arguments getContext {Configuration}.
Arguments setContext {Configuration}.
Arguments setFileSystem {Configuration}.
Arguments call {Configuration}.
Arguments query {Configuration A}.
Arguments stdoutWrite {Configuration}.
Arguments fspAccess {Configuration}.
Arguments fspUnlink {Configuration}.
Arguments picked {Configuration}.
Arguments listPrompt {Configuration}.
Arguments inputAttempts {Configuration}.
Arguments inputPrompt {Configuration}.
Arguments projectTypeChoice {Configuration}.
Arguments validateProjectName {Configuration}.
Arguments projectNameInput {Configuration}.
Arguments resolveProjectNameInput {Configuration}.
Arguments isApplicable {Configuration}.
Arguments onUrlDownloadError {Configuration A}.
Arguments onNamedDownloadError {Configuration A}.
Arguments callDownload {Configuration}.
Arguments confirmCreation {Configuration}.
Arguments chooseProjectType {Configuration}.
Arguments acquireTemplate {Configuration}.
Arguments installDependencies {Configuration}.
Arguments finalize {Configuration}.
Arguments run {Configuration}.

(** The template-source keys that an options object holds, counted from
    the side of the three keys. *)
Definition templateKeysPresent (opts : gmap string string) : list string :=
  filter (λ key, is_Some (opts !! key)) templateOptions.

(** The error of the first guard of [run]. *)
Definition multipleTemplateOptions : JsError :=
  ServerlessError MULTIPLE_TEMPLATE_OPTIONS_MESSAGE "MULTIPLE_TEMPLATE_OPTIONS_PROVIDED".

(** The options object with the three template-source keys removed. *)
Definition withoutTemplateOptions (opts : gmap string string) : gmap string string :=
  delete "template-path" (delete "template" (delete "template-url" opts)).

(** A name of 130 letters. *)
Definition longName : string := String.string_of_list_ascii (replicate 130 "a"%char).

(** The errors of the naming step. *)
Definition invalidProjectName : JsError :=
  ServerlessError INVALID_PROJECT_NAME_MESSAGE "INVALID_PROJECT_NAME".

Definition targetFolderExists (name : string) : JsError :=
  ServerlessError ("Path " +:+ name +:+ " is already taken") "TARGET_FOLDER_ALREADY_EXISTS".

(** What the two [catch] clauses of the downloads throw for a failure
    whose constructor is [ServerlessError], given the text put before the
    underlying message and the tag. *)
Definition rethrown (wrap : string → string) (tag : string) (err : JsError) : JsError :=
  if String.eqb (constructorName err) "ServerlessError"
  then ServerlessError (wrap (message err)) tag
  else err.

(** The three collaborators that load the configuration always resolve. *)
Definition configurationLoads {Configuration : Type} (env : Env Configuration) : Prop :=
  (∀ dir fs, ∃ path, resolveConfigurationPath env dir fs = Resolved path)
  ∧ (∀ path fs, ∃ loaded, readConfiguration env path fs = Resolved loaded)
  ∧ (∀ ctx fs, ∃ resolved, resolveVariables env ctx fs = Resolved resolved).

(** The second state carries the log of the first, with more entries or
    none. *)
Definition logExtends {Configuration : Type} (st st' : State Configuration) : Prop :=
  ∃ more, events st' = events st ++ more.

(** The [default] of the name prompt. *)
Definition suggestedName (projectType : option string) : option string :=
  if truthy projectType
  then Some (from_option id EmptyString projectType +:+ "-project")
  else None.

(** What [projectNameInput] does with the submissions that are left,
    given the default that is left. *)
Definition remainingAttempts {Configuration : Type} (env : Env Configuration)
    (workingDir : string) (default : option string) (submissions : list Submission) :
    M Configuration string :=
  bind
    (inputAttempts "projectName" default (validateProjectName env workingDir) submissions)
    (λ projectName, ret (trim projectName)).

(** The user types a line and presses Enter; the user presses Enter and
    nothing else. *)
Definition typed (text : string) : Submission := {| keyPressed := true; line := text |}.

Definition enterAlone : Submission := {| keyPressed := false; line := EmptyString |}.

(** The no-break space, U+00A0. *)
Definition nbsp : string := String "194"%char (String "160"%char EmptyString).

(** The assignments of [run] to the context, and a state with its
    context changed. *)
Definition withServiceDir {Configuration : Type} (dir : string) (c : Context Configuration) :
    Context Configuration :=
  {| cwd := cwd c; options := options c; serviceDir := Some dir;
     configurationFilename := configurationFilename c; configuration := configuration c |}.

Definition withConfigurationFilename {Configuration : Type} (name : string)
    (c : Context Configuration) : Context Configuration :=
  {| cwd := cwd c; options := options c; serviceDir := serviceDir c;
     configurationFilename := Some name; configuration := configuration c |}.

Definition withConfiguration {Configuration : Type} (value : Configuration)
    (c : Context Configuration) : Context Configuration :=
  {| cwd := cwd c; options := options c; serviceDir := serviceDir c;
     configurationFilename := configurationFilename c; configuration := Some value |}.

Definition mapContext {Configuration : Type}
    (f : Context Configuration → Context Configuration) (st : State Configuration) :
    State Configuration :=
  {| context := f (context st); fileSystem := fileSystem st; events := events st |}.

(** A computation leaves an observation of the state as it found it,
    however it ends. *)
Definition preserves {Configuration A X : Type} (observe : State Configuration → X)
    (m : M Configuration A) : Prop :=
  ∀ st, observe (m st).2 = observe st.

(** ** Concrete sessions, for the examples *)

Module Sample.

Definition join (a b : string) : string := a +:+ "/" +:+ b.

(** What a template leaves on the disk: the collaborators of the sample
    resolve the project name against the directory of the process,
    [/work]. *)
Definition materialize (projectName : string) (fs : FileSystem) : FileSystem :=
  {[ join "/work" projectName; join (join "/work" projectName) "package.json";
     join (join "/work" projectName) "serverless.yml" ]} ∪ fs.

(** A terminal where the user picks the entry at position [pick name] of
    the list prompt [name] and submits [submissions] to every input prompt;
    the download and the install settle as given, every other collaborator
    succeeds. *)
Definition terminal (pick : string → nat) (submissions : list Submission)
    (download install : Settled unit) : Env string :=
  {| processCwd := "/work";
     pathJoin := join;
     chalkYellow := id;
     chalkGreen := id;
     userSelects := pick;
     userTypes := λ _, submissions;
     createFromLocalTemplate := λ _ _ projectName fs, (Resolved tt, materialize projectName fs);
     downloadTemplateFromRepo :=
       λ _ _ projectName fs,
         match download with
         | Resolved _ => (download, materialize projectName fs)
         | Rejected _ => (download, fs)
         end;
     npmCommandDeferred := "npm";
     spawn := λ _ _ _ fs, (install, fs);
     resolveConfigurationPath := λ dir _, Resolved (join dir "serverless.yml");
     readConfiguration := λ path _, Resolved ("service: " +:+ path);
     resolveVariables := λ c _, Resolved (from_option id EmptyString (configuration c)) |}.

(** The user confirms, picks the first template and types [demo1]; all
    collaborators succeed. *)
(** The same, where the user types each of [lines]. *)
Definition world (pick : string → nat) (lines : list string)
    (download install : Settled unit) : Env string :=
  terminal pick (typed <$> lines) download install.

Definition firstEntry (name : string) : nat := 0.

Definition env : Env string := world firstEntry ["demo1"] (Resolved tt) (Resolved tt).

(** The user confirms, then picks the last entry of the template list. *)
Definition picksOther (name : string) : nat :=
  if String.eqb name "projectType" then 12 else 0.

Definition session (opts : gmap string string) (dir : option string) : State string :=
  {| context :=
       {| cwd := None; options := opts; serviceDir := dir;
          configurationFilename := None; configuration := None |};
     fileSystem := ∅;
     events := [] |}.

Definition notFound : JsError :=
  {| constructorName := "Error"; code := Some "ENOENT"; message := "spawn npm ENOENT" |}.

Definition exitCode1 : JsError :=
  {| constructorName := "Error"; code := Some "1"; message := "npm exited with code 1" |}.

Definition networkDown : JsError :=
  {| constructorName := "Error"; code := Some "ECONNREFUSED"; message := "connect ECONNREFUSED" |}.

Definition missingTemplate : JsError :=
  {| constructorName := "Error"; code := Some "ENOENT";
     message := "ENOENT: no such file or directory" |}.

Definition unknownTemplate : JsError :=
  ServerlessError "The URL must be a valid GitHub, BitBucket or GitLab url" "INVALID_URL".

(** Options of the sessions used below. *)
Definition fromUrl : gmap string string :=
  {[ "template-url" := "https://github.com/acme/starter"; "name" := "demo1" ]}.

Definition fromTemplate : gmap string string :=
  {[ "template" := "aws-node"; "name" := "demo1" ]}.

Definition onlyName : gmap string string := {[ "name" := "demo1" ]}.

Definition emptyName : gmap string string := {[ "name" := EmptyString ]}.

Definition twoSources : gmap string string :=
  {[ "template" := "aws-node"; "template-url" := "https://github.com/acme/starter" ]}.

Definition paddedName : gmap string string := {[ "name" := " demo " ]}.

Definition emptyTemplates : gmap string string :=
  {[ "template" := EmptyString; "template-url" := EmptyString ]}.

Definition fromLocalPath : gmap string string :=
  {[ "template-path" := "/templates/starter"; "name" := "demo1" ]}.

Definition badName : gmap string string :=
  {[ "template" := "aws-node"; "name" := "1abc" ]}.

(** The user declines at the confirmation. *)
Definition secondEntry (name : string) : nat := 1.

(** A session in which [demo1] exists under the working directory. *)
Definition occupied (opts : gmap string string) : State string :=
  setFileSystem {[ "/work/demo1" ]} (session opts None).


Definition noConfigurationFile : JsError :=
  ServerlessError "No configuration file found" "MISSING_SERVICE_CONFIGURATION".

(** The world of [env], except that no configuration file is found. *)
Definition withoutConfiguration : Env string :=
  {| processCwd := processCwd env;
     pathJoin := pathJoin env;
     chalkYellow := chalkYellow env;
     chalkGreen := chalkGreen env;
     userSelects := userSelects env;
     userTypes := userTypes env;
     createFromLocalTemplate := createFromLocalTemplate env;
     downloadTemplateFromRepo := downloadTemplateFromRepo env;
     npmCommandDeferred := npmCommandDeferred env;
     spawn := spawn env;
     resolveConfigurationPath := λ _ _, Rejected noConfigurationFile;
     readConfiguration := readConfiguration env;
     resolveVariables := resolveVariables env |}.

(** The state in which the download of [aws-node] into [demo1] leaves the
    session of [fromTemplate]. *)
Definition downloaded : State string :=
  setFileSystem (materialize "demo1" ∅)
    (log
       (EvDownloadTemplateFromRepo (examplesUrl "aws-node") (Some "aws-node") "demo1")
       (log (EvStdout (downloadingLine "aws-node"))
          (log (EvAccess "/work/demo1") (session fromTemplate None)))).

End Sample.

(** ** Properties *)

(** Membership in a list written out. *)
Ltac listed :=
  repeat first [apply list_elem_of_here | apply list_elem_of_further].

(** Closes a closed goal by evaluation. *)
Ltac evaluated :=
  first [ reflexivity
        | apply (bool_decide_unpack _); reflexivity
        | vm_compute; lia ].

Section Properties.

Variable Configuration : Type.
Variable env : Env Configuration.

Implicit Types (st : State Configuration) (ctx : Context Configuration).
Implicit Types (opts : gmap string string) (err : JsError).

(** Unfolds the operations of the monad and the primitive effects. *)
Ltac effects :=
  cbv [bind ret throw pending tryCatch emit getContext setContext call query
       stdoutWrite fspAccess fspUnlink settle].

(** *** Stepping through a computation *)

Lemma bind_returned {A B : Type} (m : M Configuration A) (k : A → M Configuration B)
    st a st' :
  m st = (Returned a, st') → bind m k st = k a st'.
Proof. intros Hm. unfold bind. by rewrite Hm. Qed.

Lemma bind_thrown {A B : Type} (m : M Configuration A) (k : A → M Configuration B)
    st e st' :
  m st = (Thrown e, st') → bind m k st = (Thrown e, st').
Proof. intros Hm. unfold bind. by rewrite Hm. Qed.

Lemma bind_bind {A B C : Type} (m : M Configuration A) (f : A → M Configuration B)
    (g : B → M Configuration C) st :
  bind (bind m f) g st = bind m (λ a, bind (f a) g) st.
Proof. unfold bind. by destruct (m st) as [[a|e|] st']. Qed.

Lemma bind_stdoutWrite {B : Type} (text : string) (k : () → M Configuration B) st :
  bind (stdoutWrite text) k st = k tt (log (EvStdout text) st).
Proof. done. Qed.

Lemma bind_setContext {B : Type} (f : Context Configuration → Context Configuration)
    (k : () → M Configuration B) st :
  bind (setContext f) k st
  = k tt {| context := f (context st); fileSystem := fileSystem st; events := events st |}.
Proof. done. Qed.

Lemma bind_getContext {B : Type} (k : Context Configuration → M Configuration B) st :
  bind getContext k st = k (context st) st.
Proof. done. Qed.

Lemma bind_query {A B : Type} (e : Event) (f : FileSystem → Settled A)
    (k : A → M Configuration B) st :
  bind (query e f) k st
  = match f (fileSystem st) with
    | Resolved a => k a (log e st)
    | Rejected err => (Thrown err, log e st)
    end.
Proof. unfold bind, query. by destruct (f (fileSystem st)). Qed.

(** The next call of the computation returns, by [H]. *)
Ltac returns_by tac :=
  rewrite ?bind_bind; erewrite bind_returned by tac; cbv beta iota;
  rewrite ?bind_bind.

Ltac returns H := returns_by ltac:(idtac; exact H).

(** *** Keys of the options object *)

Lemma objectKeys_spec opts key : key ∈ objectKeys opts ↔ is_Some (opts !! key).
Proof.
  unfold objectKeys. rewrite list_elem_of_fmap. split.
  - intros [[k v] [-> Hin]]. apply elem_of_map_to_list in Hin. by exists v.
  - intros [v Hv]. exists (key, v). split; [done|]. by apply elem_of_map_to_list.
Qed.

Lemma setHas_spec members key : setHas members key ↔ key ∈ members.
Proof. unfold setHas. by rewrite bool_decide_spec. Qed.

(** Counting the keys of the object that are template options is counting
    the template options that are keys of the object. *)
Lemma templateKeys_count opts :
  length (filter (λ key, setHas templateOptions key) (objectKeys opts))
  = length (templateKeysPresent opts).
Proof.
  apply Permutation_length, NoDup_Permutation.
  - apply NoDup_filter, NoDup_fst_map_to_list.
  - apply NoDup_filter. unfold templateOptions.
    apply (bool_decide_unpack _). by vm_compute.
  - intros key. unfold templateKeysPresent.
    rewrite !list_elem_of_filter, setHas_spec, objectKeys_spec. tauto.
Qed.

Lemma some_notApplicable opts :
  existsb (setHas notApplicableOptions) (objectKeys opts) = true
  ↔ ∃ key, key ∈ notApplicableOptions ∧ is_Some (opts !! key).
Proof.
  rewrite <- Is_true_true, existb_True, Exists_exists. split.
  - intros (key & Hin & Hhas). exists key.
    by rewrite <- setHas_spec, <- objectKeys_spec.
  - intros (key & Hin & Hhas). exists key.
    by rewrite setHas_spec, objectKeys_spec.
Qed.

(** *** The guards *)

Lemma run_guard_throws st :
  (1 < length (templateKeysPresent (options (context st))))%nat →
  run env st = (Thrown multipleTemplateOptions, st).
Proof.
  intros Hcount. unfold run, bind, getContext.
  rewrite templateKeys_count.
  destruct (Nat.ltb_spec 1 (length (templateKeysPresent (options (context st)))));
    [done | lia].
Qed.

(** C4. [isApplicable] throws [NOT_APPLICABLE_SERVICE_OPTIONS] whenever a
    service directory is active (the [serviceDir] of the context is truthy)
    and one of the keys [name], [template-path], [template], [template-url]
    is present in the options; whenever it returns, it returns [true]
    exactly when no service directory is active. *)
Theorem isApplicable_guard ctx :
  (truthy (serviceDir ctx) = true →
   (∃ key, key ∈ notApplicableOptions ∧ is_Some (options ctx !! key)) →
   isApplicable ctx
   = Thrown (ServerlessError NOT_APPLICABLE_MESSAGE "NOT_APPLICABLE_SERVICE_OPTIONS"))
  ∧ (∀ b : bool, isApplicable ctx = Returned b →
       (b = true ↔ truthy (serviceDir ctx) = false)).
Proof.
  unfold isApplicable. split.
  - intros Hactive Hkey. apply some_notApplicable in Hkey.
    by rewrite Hactive, Hkey.
  - intros b.
    destruct (truthy (serviceDir ctx)); simpl;
      [destruct (existsb _ _); [discriminate|] |]; intros [= <-]; split; done.
Qed.

(** C3. For every options object holding two or more of the keys
    [template-path], [template], [template-url], [run] throws
    [MULTIPLE_TEMPLATE_OPTIONS_PROVIDED] and leaves the state as it found
    it: the context and the file system are untouched and nothing has been
    added to the log of prompts, output, file system calls and collaborator
    calls. *)
Theorem run_rejects_multiple_template_options st :
  (2 ≤ length (templateKeysPresent (options (context st))))%nat →
  run env st
  = (Thrown
       (ServerlessError MULTIPLE_TEMPLATE_OPTIONS_MESSAGE "MULTIPLE_TEMPLATE_OPTIONS_PROVIDED"),
     st).
Proof. intros Hcount. apply run_guard_throws. lia. Qed.

(** *** Presence against truthiness *)

Lemma lookup_withoutTemplateOptions opts key :
  key ∉ templateOptions → withoutTemplateOptions opts !! key = opts !! key.
Proof.
  intros Hkey. unfold withoutTemplateOptions.
  rewrite !lookup_delete_ne; [done | | |];
    intros <-; apply Hkey; unfold templateOptions; set_solver.
Qed.

Lemma lookup_withoutTemplateOptions_None opts key :
  key ∈ templateOptions → withoutTemplateOptions opts !! key = None.
Proof.
  unfold templateOptions, withoutTemplateOptions. intros Hkey.
  rewrite !lookup_delete.
  repeat (apply elem_of_cons in Hkey as [-> | Hkey]; [by repeat case_decide|]).
  by apply elem_of_nil in Hkey.
Qed.

Lemma falsy_of_empty opts key :
  (is_Some (opts !! key) → opts !! key = Some EmptyString) → truthy (opts !! key) = false.
Proof.
  destruct (opts !! key) as [v|] eqn:Hv; [|done].
  intros Hempty. by rewrite Hempty.
Qed.

(** C10. The guard tests presence, the dispatch tests truthiness: when two
    or more of the three template-source keys are present and every one
    that is present holds the empty string, [run] still throws
    [MULTIPLE_TEMPLATE_OPTIONS_PROVIDED], although each of the three reads
    as falsy, so that the confirmation gate and the source dispatch treat
    the options exactly as if the three keys were absent. *)
Theorem run_rejects_empty_template_options st :
  (2 ≤ length (templateKeysPresent (options (context st))))%nat →
  (∀ key, key ∈ templateOptions →
     is_Some (options (context st) !! key) →
     options (context st) !! key = Some EmptyString) →
  run env st
  = (Thrown
       (ServerlessError MULTIPLE_TEMPLATE_OPTIONS_MESSAGE "MULTIPLE_TEMPLATE_OPTIONS_PROVIDED"),
     st)
  ∧ (∀ key, key ∈ templateOptions → truthy (options (context st) !! key) = false)
  ∧ (∀ st', confirmCreation env (options (context st)) st'
            = confirmCreation env (withoutTemplateOptions (options (context st))) st')
  ∧ (∀ workingDir st',
       acquireTemplate env (options (context st)) workingDir st'
       = acquireTemplate env (withoutTemplateOptions (options (context st))) workingDir st').
Proof.
  intros Hcount Hempty.
  set (opts := options (context st)) in *.
  assert (Hfalsy : ∀ key, key ∈ templateOptions → truthy (opts !! key) = false).
  { intros key Hkey. apply falsy_of_empty. by apply Hempty. }
  assert (Hpath : truthy (opts !! "template-path") = false)
    by (apply Hfalsy; unfold templateOptions; listed).
  assert (Htemplate : truthy (opts !! "template") = false)
    by (apply Hfalsy; unfold templateOptions; listed).
  assert (Hurl : truthy (opts !! "template-url") = false)
    by (apply Hfalsy; unfold templateOptions; listed).
  assert (Hname : withoutTemplateOptions opts !! "name" = opts !! "name").
  { apply lookup_withoutTemplateOptions. unfold templateOptions.
    rewrite !elem_of_cons, elem_of_nil. intros [?|[?|[?|[]]]]; discriminate. }
  split; [apply run_guard_throws; fold opts; lia|].
  split; [done|].
  split.
  - intros st'. unfold confirmCreation.
    rewrite Hname.
    rewrite !lookup_withoutTemplateOptions_None by (unfold templateOptions; listed).
    by rewrite Hpath, Htemplate, Hurl.
  - intros workingDir st'. unfold acquireTemplate, chooseProjectType, onNamedDownloadError.
    unfold resolveProjectNameInput.
    rewrite Hname.
    rewrite !lookup_withoutTemplateOptions_None by (unfold templateOptions; listed).
    by rewrite Hpath, Htemplate, Hurl.
Qed.

(** *** Naming *)

Lemma truthy_nonempty (name : string) : name ≠ EmptyString → truthy (Some name) = true.
Proof. by destruct name. Qed.

(** The collision test of both naming paths: one [fsp.access], whose
    failure is swallowed. *)
Lemma access_taken {A : Type} (path : string) (found missing : A) st :
  tryCatch (bind (fspAccess path) (λ _, ret found)) (λ _, ret missing) st
  = (Returned (if bool_decide (path ∈ fileSystem st) then found else missing),
     log (EvAccess path) st).
Proof.
  effects. simpl.
  by destruct (bool_decide (path ∈ fileSystem st)).
Qed.

Lemma resolveProjectNameInput_named opts workingDir projectType st name :
  opts !! "name" = Some name → name ≠ EmptyString →
  resolveProjectNameInput env opts workingDir projectType st
  = if negb (isValidServiceName name) then (Thrown invalidProjectName, st)
    else if bool_decide (pathJoin env workingDir name ∈ fileSystem st)
         then (Thrown (targetFolderExists name), log (EvAccess (pathJoin env workingDir name)) st)
         else (Returned name, log (EvAccess (pathJoin env workingDir name)) st).
Proof.
  intros Hname Hne. unfold resolveProjectNameInput.
  rewrite Hname, (truthy_nonempty name Hne). simpl.
  destruct (isValidServiceName name); simpl; [|done].
  unfold bind at 1. rewrite access_taken.
  by destruct (bool_decide _).
Qed.

(** C5, amended. For a non-empty project name supplied by the [name]
    option, the naming step throws [INVALID_PROJECT_NAME] when the name does
    not match the pattern (as [1abc], [abc_def] and a name of 130 letters do
    not), throws [TARGET_FOLDER_ALREADY_EXISTS] with the message
    [Path <name> is already taken] when the name matches and the path of that
    name under the working directory exists, and returns the name
    otherwise. An empty [name] option is treated as absent: the naming step
    does what it does without the option, which is to ask at the prompt. *)
Theorem resolveProjectNameInput_explicit opts workingDir projectType st name :
  opts !! "name" = Some name →
  (name ≠ EmptyString →
   (isValidServiceName name = false →
    resolveProjectNameInput env opts workingDir projectType st
    = (Thrown (ServerlessError INVALID_PROJECT_NAME_MESSAGE "INVALID_PROJECT_NAME"), st))
   ∧ (isValidServiceName name = true →
      pathJoin env workingDir name ∈ fileSystem st →
      resolveProjectNameInput env opts workingDir projectType st
      = (Thrown
           (ServerlessError ("Path " +:+ name +:+ " is already taken")
              "TARGET_FOLDER_ALREADY_EXISTS"),
         log (EvAccess (pathJoin env workingDir name)) st))
   ∧ (isValidServiceName name = true →
      pathJoin env workingDir name ∉ fileSystem st →
      resolveProjectNameInput env opts workingDir projectType st
      = (Returned name, log (EvAccess (pathJoin env workingDir name)) st)))
  ∧ (name = EmptyString →
     resolveProjectNameInput env opts workingDir projectType st
     = resolveProjectNameInput env (delete "name" opts) workingDir projectType st
     ∧ resolveProjectNameInput env opts workingDir projectType st
       = projectNameInput env workingDir projectType st)
  ∧ isValidServiceName "1abc" = false
  ∧ isValidServiceName "abc_def" = false
  ∧ (String.length longName = 130 ∧ isValidServiceName longName = false).
Proof.
  intros Hname. split; [|split].
  - intros Hne. rewrite (resolveProjectNameInput_named _ _ _ _ _ Hname Hne).
    split; [by intros ->|].
    split; [intros -> Hin; by rewrite bool_decide_eq_true_2|].
    intros -> Hnotin. by rewrite bool_decide_eq_false_2.
  - intros ->. unfold resolveProjectNameInput.
    by rewrite Hname, lookup_delete_eq.
  - split; [reflexivity|]. split; [reflexivity|]. split; reflexivity.
Qed.

(** C6, on the code. A name given by the [name] option is validated as it
    is, surrounding whitespace included: [ demo ] is refused with
    [INVALID_PROJECT_NAME], in any working directory and whatever the disk
    holds, although it trims to [demo], which matches the pattern. *)
Theorem explicit_name_is_not_trimmed workingDir projectType st :
  trim " demo " = "demo"
  ∧ isValidServiceName (trim " demo ") = true
  ∧ resolveProjectNameInput env {[ "name" := " demo " ]} workingDir projectType st
    = (Thrown (ServerlessError INVALID_PROJECT_NAME_MESSAGE "INVALID_PROJECT_NAME"), st).
Proof.
  split; [by vm_compute | split; [by vm_compute |]].
  by rewrite (resolveProjectNameInput_named _ _ _ _ " demo ");
    [| apply lookup_singleton_eq |].
Qed.

(** *** The path of [run] to a download *)

Lemma run_past_guard st :
  (length (templateKeysPresent (options (context st))) ≤ 1)%nat →
  run env st
  = bind (confirmCreation env (options (context st)))
      (λ proceed : bool,
         if negb proceed then ret tt
         else
           bind
             (acquireTemplate env (options (context st))
                (orElse (cwd (context st)) (processCwd env)))
             (λ acquired,
                match acquired with
                | None => ret tt
                | Some (projectDir, projectName) =>
                    bind (installDependencies env projectDir projectName)
                      (λ _, finalize env projectDir projectName)
                end)) st.
Proof.
  intros Hcount. unfold run. unfold bind at 1. unfold getContext.
  rewrite templateKeys_count.
  by destruct (Nat.ltb_spec 1 (length (templateKeysPresent (options (context st)))));
    [lia|].
Qed.

Lemma download_rejected url templateName projectName (handler : JsError → M Configuration ())
    st err fs :
  downloadTemplateFromRepo env url templateName projectName (fileSystem st) = (Rejected err, fs) →
  tryCatch (callDownload env url templateName projectName) handler st
  = handler err
      (setFileSystem fs (log (EvDownloadTemplateFromRepo url templateName projectName) st)).
Proof. intros Hdownload. unfold tryCatch, callDownload, call. by rewrite Hdownload. Qed.

Lemma download_resolved url templateName projectName (handler : JsError → M Configuration ())
    st fs :
  downloadTemplateFromRepo env url templateName projectName (fileSystem st) = (Resolved tt, fs) →
  tryCatch (callDownload env url templateName projectName) handler st
  = (Returned tt,
     setFileSystem fs (log (EvDownloadTemplateFromRepo url templateName projectName) st)).
Proof. intros Hdownload. unfold tryCatch, callDownload, call. by rewrite Hdownload. Qed.

Lemma onUrlDownloadError_throws err st :
  onUrlDownloadError (A := ()) err st
  = (Thrown (rethrown invalidTemplateUrlMessage "INVALID_TEMPLATE_URL" err), st).
Proof.
  unfold onUrlDownloadError, rethrown.
  by destruct (String.eqb (constructorName err) "ServerlessError").
Qed.

Lemma onNamedDownloadError_throws opts err st :
  onNamedDownloadError (A := ()) opts err st
  = (Thrown
       (if bool_decide (code err = Some "ENOENT") && truthy (opts !! "template")
        then ServerlessError INVALID_TEMPLATE_MESSAGE "INVALID_TEMPLATE"
        else rethrown templateDownloadFailedMessage "TEMPLATE_DOWNLOAD_FAILED" err),
     st).
Proof.
  unfold onNamedDownloadError, rethrown.
  destruct (bool_decide (code err = Some "ENOENT") && truthy (opts !! "template")); [done|].
  by destruct (String.eqb (constructorName err) "ServerlessError").
Qed.

(** The download from a given url fails. *)
Lemma run_url_download_rejected st st1 projectName err fs :
  (length (templateKeysPresent (options (context st))) ≤ 1)%nat →
  truthy (options (context st) !! "template-path") = false →
  truthy (options (context st) !! "template-url") = true →
  resolveProjectNameInput env (options (context st))
    (orElse (cwd (context st)) (processCwd env)) None st = (Returned projectName, st1) →
  downloadTemplateFromRepo env (prop (options (context st)) "template-url") None projectName
    (fileSystem st1) = (Rejected err, fs) →
  run env st
  = (Thrown (rethrown invalidTemplateUrlMessage "INVALID_TEMPLATE_URL" err),
     setFileSystem fs
       (log
          (EvDownloadTemplateFromRepo (prop (options (context st)) "template-url") None
             projectName)
          (log (EvStdout (downloadingFromUrlLine (prop (options (context st)) "template-url")))
             st1))).
Proof.
  intros Hcount Hpath Hurl Hname Hdownload.
  rewrite run_past_guard by done.
  unfold confirmCreation. rewrite Hpath, Hurl, !andb_false_r.
  erewrite bind_returned by reflexivity. cbn [negb].
  unfold acquireTemplate. rewrite Hpath, Hurl.
  returns Hname. rewrite bind_stdoutWrite.
  erewrite bind_thrown; [done|].
  erewrite bind_thrown; [done|].
  erewrite download_rejected by exact Hdownload.
  apply onUrlDownloadError_throws.
Qed.

(** The download of a named template fails. *)
Lemma run_named_download_rejected st st0 st1 st2 projectType projectName err fs :
  (length (templateKeysPresent (options (context st))) ≤ 1)%nat →
  truthy (options (context st) !! "template-path") = false →
  truthy (options (context st) !! "template-url") = false →
  confirmCreation env (options (context st)) st = (Returned true, st0) →
  chooseProjectType env (options (context st)) st0 = (Returned (Some projectType), st1) →
  resolveProjectNameInput env (options (context st))
    (orElse (cwd (context st)) (processCwd env)) (Some projectType) st1
  = (Returned projectName, st2) →
  downloadTemplateFromRepo env (examplesUrl projectType) (Some projectType) projectName
    (fileSystem st2) = (Rejected err, fs) →
  run env st
  = (Thrown
       (if bool_decide (code err = Some "ENOENT") && truthy (options (context st) !! "template")
        then ServerlessError INVALID_TEMPLATE_MESSAGE "INVALID_TEMPLATE"
        else rethrown templateDownloadFailedMessage "TEMPLATE_DOWNLOAD_FAILED" err),
     setFileSystem fs
       (log (EvDownloadTemplateFromRepo (examplesUrl projectType) (Some projectType) projectName)
          (log (EvStdout (downloadingLine projectType)) st2))).
Proof.
  intros Hcount Hpath Hurl Hconfirm Hchoose Hname Hdownload.
  rewrite run_past_guard by done.
  returns Hconfirm. cbn [negb].
  unfold acquireTemplate. rewrite Hpath, Hurl.
  returns Hchoose. returns Hname. rewrite bind_stdoutWrite.
  erewrite bind_thrown; [done|].
  erewrite bind_thrown; [done|].
  erewrite download_rejected by exact Hdownload.
  apply onNamedDownloadError_throws.
Qed.

(** *** Failures of the download *)

Lemma rethrown_foreign wrap tag err :
  constructorName err ≠ "ServerlessError" → rethrown wrap tag err = err.
Proof. intros Hctor. unfold rethrown. by apply String.eqb_neq in Hctor as ->. Qed.

Lemma rethrown_structured wrap tag err :
  constructorName err = "ServerlessError" →
  rethrown wrap tag err = ServerlessError (wrap (message err)) tag.
Proof. intros Hctor. unfold rethrown. by apply String.eqb_eq in Hctor as ->. Qed.

(** C1, amended. When the download fails, [run] throws the failure itself
    when its constructor is not [ServerlessError], and wraps it when it is:
    tagged [INVALID_TEMPLATE_URL] with the underlying message after a given
    url, tagged [TEMPLATE_DOWNLOAD_FAILED] with the underlying message for a
    named template (where a failure with code [ENOENT] under a truthy
    [template] option is set apart). *)
Theorem run_download_failure st :
  (length (templateKeysPresent (options (context st))) ≤ 1)%nat →
  truthy (options (context st) !! "template-path") = false →
  (∀ st1 projectName err fs,
     truthy (options (context st) !! "template-url") = true →
     resolveProjectNameInput env (options (context st))
       (orElse (cwd (context st)) (processCwd env)) None st = (Returned projectName, st1) →
     downloadTemplateFromRepo env (prop (options (context st)) "template-url") None
       projectName (fileSystem st1) = (Rejected err, fs) →
     (constructorName err ≠ "ServerlessError" → (run env st).1 = Thrown err)
     ∧ (constructorName err = "ServerlessError" →
        (run env st).1
        = Thrown
            (ServerlessError (invalidTemplateUrlMessage (message err)) "INVALID_TEMPLATE_URL")))
  ∧ (∀ st0 st1 st2 projectType projectName err fs,
     truthy (options (context st) !! "template-url") = false →
     confirmCreation env (options (context st)) st = (Returned true, st0) →
     chooseProjectType env (options (context st)) st0 = (Returned (Some projectType), st1) →
     resolveProjectNameInput env (options (context st))
       (orElse (cwd (context st)) (processCwd env)) (Some projectType) st1
     = (Returned projectName, st2) →
     downloadTemplateFromRepo env (examplesUrl projectType) (Some projectType) projectName
       (fileSystem st2) = (Rejected err, fs) →
     ¬ (code err = Some "ENOENT" ∧ truthy (options (context st) !! "template") = true) →
     (constructorName err ≠ "ServerlessError" → (run env st).1 = Thrown err)
     ∧ (constructorName err = "ServerlessError" →
        (run env st).1
        = Thrown
            (ServerlessError (templateDownloadFailedMessage (message err))
               "TEMPLATE_DOWNLOAD_FAILED"))).
Proof.
  intros Hcount Hpath. split.
  - intros st1 projectName err fs Hurl Hname Hdownload.
    rewrite (run_url_download_rejected _ _ _ _ _ Hcount Hpath Hurl Hname Hdownload).
    split; intros Hctor.
    + by rewrite rethrown_foreign.
    + by rewrite rethrown_structured.
  - intros st0 st1 st2 projectType projectName err fs Hurl Hconfirm Hchoose Hname
      Hdownload Hfound.
    rewrite (run_named_download_rejected _ _ _ _ _ _ _ _
               Hcount Hpath Hurl Hconfirm Hchoose Hname Hdownload).
    destruct (bool_decide (code err = Some "ENOENT") && truthy (options (context st) !! "template"))
      eqn:Hguard.
    { apply andb_true_iff in Hguard as [Hcode%bool_decide_eq_true Htemplate].
      by destruct Hfound. }
    split; intros Hctor.
    + by rewrite rethrown_foreign.
    + by rewrite rethrown_structured.
Qed.

(** C2. For a named template whose download fails with code [ENOENT],
    [run] throws [INVALID_TEMPLATE] when the [template] option supplied the
    identifier; when the identifier came from the picker, what [run] throws
    is not tagged [INVALID_TEMPLATE]. *)
Theorem run_named_template_not_found st st0 st1 st2 projectType projectName err fs :
  (length (templateKeysPresent (options (context st))) ≤ 1)%nat →
  truthy (options (context st) !! "template-path") = false →
  truthy (options (context st) !! "template-url") = false →
  confirmCreation env (options (context st)) st = (Returned true, st0) →
  chooseProjectType env (options (context st)) st0 = (Returned (Some projectType), st1) →
  resolveProjectNameInput env (options (context st))
    (orElse (cwd (context st)) (processCwd env)) (Some projectType) st1
  = (Returned projectName, st2) →
  downloadTemplateFromRepo env (examplesUrl projectType) (Some projectType) projectName
    (fileSystem st2) = (Rejected err, fs) →
  code err = Some "ENOENT" →
  (truthy (options (context st) !! "template") = true →
   projectType = prop (options (context st)) "template"
   ∧ (run env st).1 = Thrown (ServerlessError INVALID_TEMPLATE_MESSAGE "INVALID_TEMPLATE"))
  ∧ (truthy (options (context st) !! "template") = false →
     EvPrompt "projectType" ∈ events st1
     ∧ ∃ e, (run env st).1 = Thrown e ∧ code e ≠ Some "INVALID_TEMPLATE").
Proof.
  intros Hcount Hpath Hurl Hconfirm Hchoose Hname Hdownload Hcode.
  rewrite (run_named_download_rejected _ _ _ _ _ _ _ _
             Hcount Hpath Hurl Hconfirm Hchoose Hname Hdownload).
  rewrite (bool_decide_eq_true_2 _ Hcode). cbn [andb].
  unfold chooseProjectType in Hchoose.
  split; intros Htemplate; rewrite Htemplate in *.
  - split; [|done]. unfold ret in Hchoose. congruence.
  - split.
    + unfold projectTypeChoice, listPrompt in Hchoose. revert Hchoose. effects.
      destruct (String.eqb _ "other"); intros [= _ <-]. cbn [events log].
      apply elem_of_app. right. listed.
    + eexists. split; [done|]. unfold rethrown.
      destruct (String.eqb (constructorName err) "ServerlessError"); [done|].
      rewrite Hcode. discriminate.
Qed.

(** *** The early return on [other] *)

(** C9. With no options, when the user confirms and then picks [other],
    [run] returns without an error; the context and the file system are as
    before, and the log has gained the two prompts and the hint written to
    standard output, and no call of a collaborator or of the file system. *)
Theorem run_other_is_noop st :
  options (context st) = ∅ →
  picked env "shouldCreateNewProject" ["Yes"; "No"] = "Yes" →
  picked env "projectType" (map snd initializeProjectChoices) = "other" →
  run env st
  = (Returned tt,
     {| context := context st;
        fileSystem := fileSystem st;
        events :=
          events st
          ++ [EvPrompt "shouldCreateNewProject"; EvPrompt "projectType"; EvStdout OTHER_HINT] |}).
Proof.
  intros Hopts Hyes Hother.
  rewrite run_past_guard by (rewrite Hopts; vm_compute; lia).
  rewrite Hopts.
  unfold confirmCreation, acquireTemplate, chooseProjectType, projectTypeChoice, listPrompt.
  rewrite !lookup_empty. cbn [truthy negb andb].
  effects. rewrite Hyes, Hother. cbn [String.eqb Ascii.eqb Bool.eqb negb log events context fileSystem].
  unfold log. cbn [events context fileSystem].
  by rewrite <- !app_assoc.
Qed.

(** *** Installation and completion *)

Lemma logExtends_refl st : logExtends st st.
Proof. exists []. by rewrite app_nil_r. Qed.

Lemma logExtends_trans st1 st2 st3 :
  logExtends st1 st2 → logExtends st2 st3 → logExtends st1 st3.
Proof.
  intros [more1 H1] [more2 H2]. exists (more1 ++ more2).
  by rewrite H2, H1, app_assoc.
Qed.

Lemma logExtends_elem e st st' : logExtends st st' → e ∈ events st → e ∈ events st'.
Proof. intros [more ->] Hin. apply elem_of_app. by left. Qed.

(** Closes a goal [logExtends st st'] where [st'] is [st] after a
    number of effects. *)
Ltac grows :=
  unfold logExtends, log, setFileSystem; cbn [events];
  rewrite <- ?app_assoc; by eexists.

(** The removal of the marker file never fails [run]. *)
Lemma unlink_quiet path st :
  ∃ st', tryCatch (fspUnlink path) (λ _, ret tt) st = (Returned tt, st')
         ∧ context st' = context st ∧ logExtends st st'.
Proof.
  unfold tryCatch, fspUnlink, bind, emit, ret. cbn [fileSystem log].
  destruct (bool_decide (path ∈ fileSystem st)); eexists; (split; [done|]);
    (split; [done|]); grows.
Qed.

(** [finalize] marks the new directory as the service directory before it
    asks for the configuration, adds to the log only, and returns when the
    configuration loads. *)
Lemma finalize_result projectDir projectName st :
  logExtends st (finalize env projectDir projectName st).2
  ∧ serviceDir (context (finalize env projectDir projectName st).2) = Some projectDir
  ∧ (configurationLoads env → (finalize env projectDir projectName st).1 = Returned tt).
Proof.
  unfold finalize.
  destruct (unlink_quiet (pathJoin env projectDir "serverless.template.yml") st)
    as (st' & Hunlink & _ & Hlog).
  returns Hunlink.
  rewrite bind_stdoutWrite, bind_setContext, bind_query. cbn [fileSystem log].
  destruct (resolveConfigurationPath env projectDir (fileSystem st')) as [path|e] eqn:Hpath.
  - rewrite bind_setContext, bind_query. cbn [fileSystem log].
    destruct (readConfiguration env path (fileSystem st')) as [loaded|e] eqn:Hread.
    + rewrite bind_setContext, bind_getContext, bind_query. cbn [fileSystem log context].
      match goal with
      | |- context [resolveVariables env ?c ?fs] =>
          destruct (resolveVariables env c fs) as [resolved|e] eqn:Hresolve
      end.
      * split; [eapply logExtends_trans; [done|grows] | done].
      * split; [eapply logExtends_trans; [done|grows] |]. split; [done|].
        intros (_ & _ & Hload).
        match type of Hresolve with
        | resolveVariables env ?c ?fs = _ => destruct (Hload c fs) as [? Hok]
        end.
        congruence.
    + split; [eapply logExtends_trans; [done|grows] |]. split; [done|].
      intros (_ & Hload & _). destruct (Hload path (fileSystem st')) as [? Hok]. congruence.
  - split; [eapply logExtends_trans; [done|grows] |]. split; [done|].
    intros (Hload & _). destruct (Hload projectDir (fileSystem st')) as [? Hok]. congruence.
Qed.

Lemma installDependencies_manifest projectDir projectName st r fs :
  pathJoin env projectDir "package.json" ∈ fileSystem st →
  spawn env (npmCommandDeferred env) ["install"] projectDir (fileSystem st) = (r, fs) →
  installDependencies env projectDir projectName st
  = let spawned :=
      setFileSystem fs
        (log (EvSpawn (npmCommandDeferred env) ["install"] projectDir)
           (log (EvStdout (installingLine projectName))
              (log (EvAccess (pathJoin env projectDir "package.json")) st))) in
    match r with
    | Resolved _ => (Returned tt, spawned)
    | Rejected err =>
        if bool_decide (code err = Some "ENOENT")
        then (Returned tt, log (EvStdout (nl +:+ chalkYellow env NPM_MISSING_WARNING +:+ nl)) spawned)
        else (Thrown (installFailed err), spawned)
    end.
Proof.
  intros Hmanifest Hspawn. unfold installDependencies.
  erewrite bind_returned by apply access_taken.
  rewrite (bool_decide_eq_true_2 _ Hmanifest), bind_stdoutWrite.
  unfold tryCatch, call. cbn [fileSystem log]. rewrite Hspawn.
  destruct r as [[]|err]; [done|]. cbn [settle].
  by destruct (bool_decide (code err = Some "ENOENT")).
Qed.

Lemma installDependencies_no_manifest projectDir projectName st :
  pathJoin env projectDir "package.json" ∉ fileSystem st →
  installDependencies env projectDir projectName st
  = (Returned tt, log (EvAccess (pathJoin env projectDir "package.json")) st).
Proof.
  intros Hmanifest. unfold installDependencies.
  erewrite bind_returned by apply access_taken.
  by rewrite (bool_decide_eq_false_2 _ Hmanifest).
Qed.



(** C7. Once the template is in place: when [package.json] exists in the
    project directory, [run] spawns the install command there; a failure of
    the spawn with code [ENOENT] is turned into a warning on standard output
    and [run] goes on to its last part (and returns when the configuration
    loads), any other failure makes [run] throw
    [DEPENDENCIES_INSTALL_FAILED] with the underlying message; when
    [package.json] does not exist, [run] goes on to its last part with
    nothing spawned and nothing written. *)
Theorem run_installs_dependencies st st0 st1 projectDir projectName :
  (length (templateKeysPresent (options (context st))) ≤ 1)%nat →
  confirmCreation env (options (context st)) st = (Returned true, st0) →
  acquireTemplate env (options (context st)) (orElse (cwd (context st)) (processCwd env)) st0
  = (Returned (Some (projectDir, projectName)), st1) →
  let manifest := pathJoin env projectDir "package.json" in
  let npm := npmCommandDeferred env in
  (manifest ∈ fileSystem st1 →
   ∀ r fs, spawn env npm ["install"] projectDir (fileSystem st1) = (r, fs) →
     let spawned :=
       setFileSystem fs
         (log (EvSpawn npm ["install"] projectDir)
            (log (EvStdout (installingLine projectName)) (log (EvAccess manifest) st1))) in
     EvSpawn npm ["install"] projectDir ∈ events (run env st).2
     ∧ (r = Resolved tt → run env st = finalize env projectDir projectName spawned)
     ∧ (∀ err, r = Rejected err → code err = Some "ENOENT" →
          run env st
          = finalize env projectDir projectName
              (log (EvStdout (nl +:+ chalkYellow env NPM_MISSING_WARNING +:+ nl)) spawned)
          ∧ (configurationLoads env → (run env st).1 = Returned tt))
     ∧ (∀ err, r = Rejected err → code err ≠ Some "ENOENT" →
          run env st
          = (Thrown
               (ServerlessError ("Cannot install dependencies: " +:+ message err)
                  "DEPENDENCIES_INSTALL_FAILED"),
             spawned)))
  ∧ (manifest ∉ fileSystem st1 →
     run env st = finalize env projectDir projectName (log (EvAccess manifest) st1)).
Proof.
  intros Hcount Hconfirm Hacquire manifest npm.
  rewrite run_past_guard by done.
  returns Hconfirm. cbn [negb]. returns Hacquire.
  split.
  - intros Hmanifest r fs Hspawn. set (spawned := setFileSystem fs _).
    pose proof (installDependencies_manifest _ projectName _ _ _ Hmanifest Hspawn) as Hinstall.
    cbv zeta in Hinstall. fold manifest npm spawned in Hinstall.
    assert (Hspawned : EvSpawn npm ["install"] projectDir ∈ events spawned).
    { unfold spawned, setFileSystem, log. cbn [events].
      apply elem_of_app. right. listed. }
    split.
    { eapply logExtends_elem; [|exact Hspawned].
      unfold bind. rewrite Hinstall.
      destruct r as [[]|err]; [apply finalize_result|].
      destruct (bool_decide (code err = Some "ENOENT")); [|apply logExtends_refl].
      eapply logExtends_trans; [|apply finalize_result]. grows. }
    split; [|split].
    + intros ->. by erewrite bind_returned by exact Hinstall.
    + intros err -> Hcode. rewrite (bool_decide_eq_true_2 _ Hcode) in Hinstall.
      erewrite bind_returned by exact Hinstall.
      split; [done|]. apply finalize_result.
    + intros err -> Hcode. rewrite (bool_decide_eq_false_2 _ Hcode) in Hinstall.
      by erewrite bind_thrown by exact Hinstall.
  - intros Hmanifest.
    by erewrite bind_returned by (by apply installDependencies_no_manifest).
Qed.

(** *** The scenario of a named template with a name *)


(** *** What a computation leaves untouched *)

Section Preservation.

Context {X : Type} (observe : State Configuration → X).

(** The observation does not read the log. *)
Hypothesis observe_log : ∀ e st, observe (log e st) = observe st.

Lemma preserves_ret {A : Type} (a : A) : preserves observe (ret a).
Proof. done. Qed.

Lemma preserves_throw {A : Type} e : preserves observe (throw (A := A) e).
Proof. done. Qed.

Lemma preserves_pending {A : Type} : preserves observe (pending (A := A)).
Proof. done. Qed.

Lemma preserves_emit e : preserves observe (emit e).
Proof. intros st. apply observe_log. Qed.

Lemma preserves_bind {A B : Type} (m : M Configuration A) (k : A → M Configuration B) :
  preserves observe m → (∀ a, preserves observe (k a)) → preserves observe (bind m k).
Proof.
  intros Hm Hk st. unfold bind. specialize (Hm st).
  destruct (m st) as [[a|e|] st']; cbn [snd] in *; [|done..].
  by rewrite Hk.
Qed.

Lemma preserves_tryCatch {A : Type} (m : M Configuration A) handler :
  preserves observe m → (∀ e, preserves observe (handler e)) →
  preserves observe (tryCatch m handler).
Proof.
  intros Hm Hh st. unfold tryCatch. specialize (Hm st).
  destruct (m st) as [[a|e|] st']; cbn [snd] in *; [done| |done].
  by rewrite Hh.
Qed.

Lemma preserves_fspAccess path : preserves observe (fspAccess path).
Proof.
  apply preserves_bind; [apply preserves_emit|]. intros _ st.
  by destruct (bool_decide _).
Qed.

Lemma preserves_query {A : Type} e (f : FileSystem → Settled A) : preserves observe (query e f).
Proof. intros st. apply observe_log. Qed.

Lemma preserves_listPrompt name choices : preserves observe (listPrompt env name choices).
Proof. apply preserves_bind; [apply preserves_emit | intros; apply preserves_ret]. Qed.

Lemma preserves_validateProjectName workingDir input :
  preserves observe (validateProjectName env workingDir input).
Proof.
  unfold validateProjectName. destruct (negb _); [apply preserves_ret|].
  apply preserves_tryCatch; [|intros; apply preserves_ret].
  apply preserves_bind; [apply preserves_fspAccess | intros; apply preserves_ret].
Qed.

Lemma preserves_inputAttempts name default workingDir submissions :
  preserves observe
    (inputAttempts name default (validateProjectName env workingDir) submissions).
Proof.
  revert default. induction submissions as [|submission rest IH]; intros default;
    [apply preserves_pending|].
  cbn [inputAttempts]. apply preserves_bind; [apply preserves_validateProjectName|].
  intros [|reason]; [apply preserves_ret|].
  apply preserves_bind; [apply preserves_emit | intros; apply IH].
Qed.

Lemma preserves_projectNameInput workingDir projectType :
  preserves observe (projectNameInput env workingDir projectType).
Proof.
  unfold projectNameInput, inputPrompt.
  apply preserves_bind; [|intros; apply preserves_ret].
  apply preserves_bind; [apply preserves_emit | intros; apply preserves_inputAttempts].
Qed.

Lemma preserves_resolveProjectNameInput opts workingDir projectType :
  preserves observe (resolveProjectNameInput env opts workingDir projectType).
Proof.
  unfold resolveProjectNameInput.
  destruct (truthy _); [|apply preserves_projectNameInput].
  destruct (negb _); [apply preserves_throw|].
  apply preserves_bind.
  - apply preserves_tryCatch; [|intros; apply preserves_ret].
    apply preserves_bind; [apply preserves_fspAccess | intros; apply preserves_ret].
  - intros [|]; [apply preserves_throw | apply preserves_ret].
Qed.

Lemma preserves_confirmCreation opts : preserves observe (confirmCreation env opts).
Proof.
  unfold confirmCreation. destruct (_ && _); [|apply preserves_ret].
  apply preserves_bind; [apply preserves_listPrompt | intros; apply preserves_ret].
Qed.

Lemma preserves_chooseProjectType opts : preserves observe (chooseProjectType env opts).
Proof.
  unfold chooseProjectType. destruct (truthy _); [apply preserves_ret|].
  apply preserves_bind; [apply preserves_listPrompt|]. intros projectType.
  destruct (String.eqb _ _); [|apply preserves_ret].
  apply preserves_bind; [apply preserves_emit | intros; apply preserves_ret].
Qed.

(** The observation does not read the file system either. *)
Hypothesis observe_fileSystem : ∀ fs st, observe (setFileSystem fs st) = observe st.

Lemma preserves_call e f : preserves observe (call e f).
Proof.
  intros st. unfold call. destruct (f (fileSystem st)) as [r fs]. cbn [snd].
  by rewrite observe_fileSystem, observe_log.
Qed.

Lemma preserves_fspUnlink path : preserves observe (fspUnlink path).
Proof.
  apply preserves_bind; [apply preserves_emit|]. intros _ st.
  destruct (bool_decide _); [apply observe_fileSystem | done].
Qed.

Lemma preserves_download url templateName projectName handler :
  (∀ e, preserves observe (handler e)) →
  preserves observe (tryCatch (callDownload env url templateName projectName) handler).
Proof. intros Hh. apply preserves_tryCatch; [apply preserves_call | done]. Qed.

Lemma preserves_acquireTemplate opts workingDir :
  preserves observe (acquireTemplate env opts workingDir).
Proof.
  unfold acquireTemplate.
  destruct (truthy (opts !! "template-path")); [|destruct (truthy (opts !! "template-url"))].
  - apply preserves_bind; [apply preserves_resolveProjectNameInput|]. intros projectName.
    apply preserves_bind; [apply preserves_call | intros; apply preserves_ret].
  - apply preserves_bind; [apply preserves_resolveProjectNameInput|]. intros projectName.
    apply preserves_bind; [apply preserves_emit|]. intros _.
    apply preserves_bind; [|intros; apply preserves_ret].
    apply preserves_download. intros e. unfold onUrlDownloadError.
    destruct (negb _); apply preserves_throw.
  - apply preserves_bind; [apply preserves_chooseProjectType|].
    intros [projectType|]; [|apply preserves_ret].
    apply preserves_bind; [apply preserves_resolveProjectNameInput|]. intros projectName.
    apply preserves_bind; [apply preserves_emit|]. intros _.
    apply preserves_bind; [|intros; apply preserves_ret].
    apply preserves_download. intros e. unfold onNamedDownloadError.
    destruct (_ && _); [apply preserves_throw|]. destruct (negb _); apply preserves_throw.
Qed.

Lemma preserves_installDependencies projectDir projectName :
  preserves observe (installDependencies env projectDir projectName).
Proof.
  unfold installDependencies. apply preserves_bind.
  - apply preserves_tryCatch; [|intros; apply preserves_ret].
    apply preserves_bind; [apply preserves_fspAccess | intros; apply preserves_ret].
  - intros [|]; [|apply preserves_ret].
    apply preserves_bind; [apply preserves_emit|]. intros _.
    apply preserves_tryCatch; [apply preserves_call|]. intros e.
    destruct (bool_decide _); [apply preserves_emit | apply preserves_throw].
Qed.

(** The observation reads nothing of the context that [finalize] sets. *)
Hypothesis observe_context :
  ∀ st (c : Context Configuration),
    cwd c = cwd (context st) → options c = options (context st) →
    observe {| context := c; fileSystem := fileSystem st; events := events st |} = observe st.

Lemma preserves_setContext f :
  (∀ c, cwd (f c) = cwd c ∧ options (f c) = options c) → preserves observe (setContext f).
Proof. intros Hf st. cbn. by apply observe_context; apply Hf. Qed.

Lemma preserves_finalize projectDir projectName :
  preserves observe (finalize env projectDir projectName).
Proof.
  unfold finalize.
  apply preserves_bind.
  { apply preserves_tryCatch; [apply preserves_fspUnlink | intros; apply preserves_ret]. }
  intros _. apply preserves_bind; [apply preserves_emit|].
  intros _. apply preserves_bind; [by apply preserves_setContext|].
  intros _. apply preserves_bind; [apply preserves_query|].
  intros configurationPath. apply preserves_bind; [by apply preserves_setContext|].
  intros _. apply preserves_bind; [apply preserves_query|].
  intros loaded. apply preserves_bind; [by apply preserves_setContext|].
  intros _. apply preserves_bind; [done|].
  intros current. apply preserves_bind; [apply preserves_query|].
  intros resolved. by apply preserves_setContext.
Qed.

Lemma preserves_run : preserves observe (run env).
Proof.
  unfold run. apply preserves_bind; [done|]. intros ctx.
  destruct (_ <? _)%nat; [apply preserves_throw|].
  apply preserves_bind; [apply preserves_confirmCreation|]. intros proceed.
  destruct (negb proceed); [apply preserves_ret|].
  apply preserves_bind; [apply preserves_acquireTemplate|].
  intros [[projectDir projectName]|]; [|apply preserves_ret].
  apply preserves_bind; [apply preserves_installDependencies|].
  intros _. apply preserves_finalize.
Qed.

End Preservation.

(** *** The pattern of names *)

Lemma nameChar_not_whiteSpace c :
  isNameChar c = true →
  isWhiteSpace1 c = false
  ∧ (∀ c2, isWhiteSpace2 c c2 = false)
  ∧ (∀ c2 c3, isWhiteSpace3 c c2 c3 = false).
Proof. by destruct c as [[] [] [] [] [] [] [] []]. Qed.

Lemma letter_nameChar c : isLetter c = true → isNameChar c = true.
Proof. unfold isNameChar. by intros ->. Qed.

Lemma trimStart_nameChar c rest :
  isNameChar c = true → trimStart (String c rest) = String c rest.
Proof.
  intros (H1 & H2 & H3)%nameChar_not_whiteSpace. cbn [trimStart]. rewrite H1.
  destruct rest as [|c2 [|c3 rest]]; [done| |]; rewrite H2; [done|]. by rewrite H3.
Qed.

Lemma trimEnd_nameChars s : allChars isNameChar s = true → trimEnd s = s.
Proof.
  induction s as [|c rest IH]; [done|]. cbn [allChars].
  intros [Hc Hrest]%andb_true_iff. cbn [trimEnd].
  by rewrite (trimStart_nameChar c rest Hc), (IH Hrest).
Qed.

Lemma valid_name_shape s :
  isValidServiceName s = true →
  (1 ≤ String.length s ≤ 101)%nat ∧ allChars isNameChar s = true ∧ trim s = s.
Proof.
  destruct s as [|c rest]; [done|]. unfold isValidServiceName.
  intros [[Hc Hlen%Nat.leb_le]%andb_true_iff Hrest]%andb_true_iff.
  assert (Hall : allChars isNameChar (String c rest) = true).
  { cbn [allChars]. by rewrite (letter_nameChar c Hc), Hrest. }
  split; [cbn [String.length]; lia|]. split; [done|].
  unfold trim. rewrite (trimStart_nameChar c rest (letter_nameChar c Hc)).
  by apply trimEnd_nameChars.
Qed.

(** X1. A name that matches the pattern has between 1 and 101
    characters, each of them a letter, a digit or a hyphen, and trimming
    leaves it as it is. *)
Theorem isValidServiceName_shape s :
  isValidServiceName s = true →
  (1 ≤ String.length s ≤ 101)%nat ∧ allChars isNameChar s = true ∧ trim s = s.
Proof. apply valid_name_shape. Qed.

(** *** The name prompt *)

Lemma validateProjectName_result workingDir input st :
  validateProjectName env workingDir input st
  = if isValidServiceName (trim input)
    then (Returned
            (if bool_decide (pathJoin env workingDir (trim input) ∈ fileSystem st)
             then Refused (pathTakenMessage (trim input))
             else Accepted),
          log (EvAccess (pathJoin env workingDir (trim input))) st)
    else (Returned (Refused INVALID_PROJECT_NAME_MESSAGE), st).
Proof.
  unfold validateProjectName. destruct (isValidServiceName (trim input)); [|done].
  cbn [negb]. apply access_taken.
Qed.

Lemma projectNameInput_unfold workingDir projectType st :
  projectNameInput env workingDir projectType st
  = remainingAttempts env workingDir (suggestedName projectType)
      (userTypes env "projectName") (log (EvPrompt "projectName") st).
Proof. unfold projectNameInput, inputPrompt, remainingAttempts. by rewrite bind_bind. Qed.

(** What the submissions of the user lead to: never an exception, and a
    name only when its trimmed form matches the pattern and is free. *)
Lemma inputAttempts_outcome name default workingDir submissions st :
  match
    (inputAttempts name default (validateProjectName env workingDir) submissions st).1
  with
  | Returned input =>
      isValidServiceName (trim input) = true
      ∧ pathJoin env workingDir (trim input) ∉ fileSystem st
  | Thrown _ => False
  | Pending => True
  end.
Proof.
  revert default st.
  induction submissions as [|submission rest IH]; intros default st; [done|].
  cbn [inputAttempts].
  set (left := if keyPressed submission then None else default).
  set (input := match line submission with EmptyString => _ | _ => line submission end).
  unfold bind at 1. rewrite validateProjectName_result.
  destruct (isValidServiceName (trim input)) eqn:Hvalid.
  - destruct (bool_decide (pathJoin env workingDir (trim input) ∈ fileSystem st)) eqn:Htaken.
    + exact (IH left (log (EvPromptRejected name (pathTakenMessage (trim input)))
                        (log (EvAccess (pathJoin env workingDir (trim input))) st))).
    + cbn. split; [done|]. by apply bool_decide_eq_false in Htaken.
  - exact (IH left (log (EvPromptRejected name INVALID_PROJECT_NAME_MESSAGE) st)).
Qed.

Lemma projectNameInput_outcome workingDir projectType st :
  match (projectNameInput env workingDir projectType st).1 with
  | Returned name =>
      isValidServiceName name = true ∧ pathJoin env workingDir name ∉ fileSystem st
  | Thrown _ => False
  | Pending => True
  end.
Proof.
  rewrite projectNameInput_unfold. unfold remainingAttempts, bind.
  pose proof (inputAttempts_outcome "projectName" (suggestedName projectType) workingDir
                (userTypes env "projectName") (log (EvPrompt "projectName") st)) as Hout.
  by destruct (inputAttempts _ _ _ _ _) as [[input|e|] st'].
Qed.

(** X2. The naming step, by option or by prompt, returns only a name
    that matches the pattern and is free under the working directory, and it
    leaves the file system and the context as they were. *)
Theorem naming_returns_valid_free_name opts workingDir projectType st name st' :
  resolveProjectNameInput env opts workingDir projectType st = (Returned name, st') →
  isValidServiceName name = true
  ∧ (pathJoin env workingDir name ∉ fileSystem st)
  ∧ fileSystem st' = fileSystem st
  ∧ context st' = context st.
Proof.
  intros Hnaming.
  pose proof (preserves_resolveProjectNameInput fileSystem (λ _ _, eq_refl)
                opts workingDir projectType st) as Hfs.
  pose proof (preserves_resolveProjectNameInput context (λ _ _, eq_refl)
                opts workingDir projectType st) as Hctx.
  rewrite Hnaming in Hfs, Hctx. cbn [snd] in *.
  enough (isValidServiceName name = true ∧ pathJoin env workingDir name ∉ fileSystem st)
    as [Hvalid Hfree] by done.
  unfold resolveProjectNameInput in Hnaming.
  destruct (truthy (opts !! "name")) eqn:Htruthy.
  - revert Hnaming. destruct (isValidServiceName _) eqn:Hvalid; cbn [negb]; [|done].
    unfold bind at 1. rewrite access_taken.
    destruct (bool_decide _) eqn:Htaken; [done|].
    intros [= <- _]. split; [done|]. by apply bool_decide_eq_false in Htaken.
  - pose proof (projectNameInput_outcome workingDir projectType st) as Hout.
    by rewrite Hnaming in Hout.
Qed.

(** X3. The name prompt never throws: it resolves to a name, or it
    goes on waiting because no line of the user was acceptable. *)
Theorem projectNameInput_never_throws workingDir projectType st :
  (∃ name, (projectNameInput env workingDir projectType st).1 = Returned name)
  ∨ (projectNameInput env workingDir projectType st).1 = Pending.
Proof.
  pose proof (projectNameInput_outcome workingDir projectType st) as Hout.
  destruct (projectNameInput env workingDir projectType st).1 as [name|e|];
    [left; by exists name | done | by right].
Qed.

(** One submission of the user at the name prompt. *)
Lemma remainingAttempts_cons workingDir default submission rest st :
  remainingAttempts env workingDir default (submission :: rest) st
  = let left := if keyPressed submission then None else default in
    let input :=
      match line submission with
      | EmptyString => from_option id EmptyString left
      | _ => line submission
      end in
    if isValidServiceName (trim input)
    then
      if bool_decide (pathJoin env workingDir (trim input) ∈ fileSystem st)
      then
        remainingAttempts env workingDir left rest
          (log (EvPromptRejected "projectName" (pathTakenMessage (trim input)))
             (log (EvAccess (pathJoin env workingDir (trim input))) st))
      else (Returned (trim input), log (EvAccess (pathJoin env workingDir (trim input))) st)
    else
      remainingAttempts env workingDir left rest
        (log (EvPromptRejected "projectName" INVALID_PROJECT_NAME_MESSAGE) st).
Proof.
  unfold remainingAttempts. cbn [inputAttempts]. cbv zeta.
  set (left := if keyPressed submission then None else default).
  set (input := match line submission with EmptyString => _ | _ => line submission end).
  rewrite bind_bind. unfold bind at 1. rewrite validateProjectName_result.
  destruct (isValidServiceName (trim input)); [|by rewrite bind_bind].
  destruct (bool_decide _); [by rewrite bind_bind | done].
Qed.

(** X4. A non-empty line submitted to the name prompt that is not
    acceptable is no error: when its trimmed form does not match the pattern
    it is refused with the guidance message, when it matches but the path
    exists it is refused with [Path <name> is already taken]; either way the
    prompt goes on with the next submission, and with no default any more
    when a key was pressed. *)
Theorem projectNameInput_asks_again workingDir projectType st submission rest :
  userTypes env "projectName" = submission :: rest →
  line submission ≠ EmptyString →
  (isValidServiceName (trim (line submission)) = false →
   projectNameInput env workingDir projectType st
   = remainingAttempts env workingDir
       (if keyPressed submission then None else suggestedName projectType) rest
       (log (EvPromptRejected "projectName" INVALID_PROJECT_NAME_MESSAGE)
          (log (EvPrompt "projectName") st)))
  ∧ (isValidServiceName (trim (line submission)) = true →
     pathJoin env workingDir (trim (line submission)) ∈ fileSystem st →
     projectNameInput env workingDir projectType st
     = remainingAttempts env workingDir
         (if keyPressed submission then None else suggestedName projectType) rest
         (log (EvPromptRejected "projectName" (pathTakenMessage (trim (line submission))))
            (log (EvAccess (pathJoin env workingDir (trim (line submission))))
               (log (EvPrompt "projectName") st)))).
Proof.
  intros Hsubmissions Hne.
  rewrite projectNameInput_unfold, Hsubmissions, remainingAttempts_cons.
  destruct (line submission) as [|c text]; [done|]. cbv zeta. split.
  - by intros ->.
  - intros -> Htaken. cbn [fileSystem log]. by rewrite (bool_decide_eq_true_2 _ Htaken).
Qed.

(** X5. Enter pressed at the name prompt before any other key stands
    for the suggestion [<projectType>-project] when a project type is known,
    and the prompt resolves to it, trimmed, when that matches the pattern and
    is free; with no project type there is no suggestion and the empty line
    is refused with the guidance message. Once a key has been pressed the
    suggestion is gone: after a first submission with a key pressed that is
    refused for its form, an empty line is refused with the guidance message
    too, whatever the project type. *)
Theorem projectNameInput_empty_line workingDir st :
  (∀ projectType rest,
     userTypes env "projectName" = enterAlone :: rest →
     projectType ≠ EmptyString →
     isValidServiceName (trim (projectType +:+ "-project")) = true →
     pathJoin env workingDir (trim (projectType +:+ "-project")) ∉ fileSystem st →
     projectNameInput env workingDir (Some projectType) st
     = (Returned (trim (projectType +:+ "-project")),
        log (EvAccess (pathJoin env workingDir (trim (projectType +:+ "-project"))))
          (log (EvPrompt "projectName") st)))
  ∧ (∀ rest,
       userTypes env "projectName" = enterAlone :: rest →
       projectNameInput env workingDir None st
       = remainingAttempts env workingDir None rest
           (log (EvPromptRejected "projectName" INVALID_PROJECT_NAME_MESSAGE)
              (log (EvPrompt "projectName") st)))
  ∧ (∀ projectType first second rest,
       userTypes env "projectName" = first :: second :: rest →
       keyPressed first = true →
       isValidServiceName (trim (line first)) = false →
       line second = EmptyString →
       projectNameInput env workingDir projectType st
       = remainingAttempts env workingDir None rest
           (log (EvPromptRejected "projectName" INVALID_PROJECT_NAME_MESSAGE)
              (log (EvPromptRejected "projectName" INVALID_PROJECT_NAME_MESSAGE)
                 (log (EvPrompt "projectName") st)))).
Proof.
  split; [|split].
  - intros projectType rest Hsubmissions Hne Hvalid Hfree.
    rewrite projectNameInput_unfold, Hsubmissions, remainingAttempts_cons.
    unfold suggestedName. rewrite (truthy_nonempty _ Hne).
    cbn [enterAlone keyPressed line from_option id]. cbv zeta. rewrite Hvalid.
    cbn [fileSystem log]. by rewrite (bool_decide_eq_false_2 _ Hfree).
  - intros rest Hsubmissions.
    by rewrite projectNameInput_unfold, Hsubmissions, remainingAttempts_cons.
  - intros projectType first second rest Hsubmissions Hkey Hinvalid Hempty.
    rewrite projectNameInput_unfold, Hsubmissions, remainingAttempts_cons.
    rewrite Hkey. cbv zeta.
    assert (Hfirst :
      isValidServiceName
        (trim match line first with
              | EmptyString => from_option id EmptyString None
              | String _ _ => line first
              end) = false).
    { destruct (line first); [done | exact Hinvalid]. }
    rewrite Hfirst, remainingAttempts_cons, Hempty.
    by destruct (keyPressed second).
Qed.

(** X18. The interactive path does trim: a non-empty submitted line that
    is acceptable once trimmed (of any white space that
    [String.prototype.trim] strips) is validated, tested for collision and
    returned in its trimmed form. *)
Theorem projectNameInput_trims workingDir projectType st submission rest :
  userTypes env "projectName" = submission :: rest →
  line submission ≠ EmptyString →
  isValidServiceName (trim (line submission)) = true →
  pathJoin env workingDir (trim (line submission)) ∉ fileSystem st →
  projectNameInput env workingDir projectType st
  = (Returned (trim (line submission)),
     log (EvAccess (pathJoin env workingDir (trim (line submission))))
       (log (EvPrompt "projectName") st)).
Proof.
  intros Hsubmissions Hne Hvalid Hfree.
  rewrite projectNameInput_unfold, Hsubmissions, remainingAttempts_cons.
  destruct (line submission) as [|c text]; [done|]. cbv zeta.
  rewrite Hvalid. cbn [fileSystem log]. by rewrite (bool_decide_eq_false_2 _ Hfree).
Qed.

(** *** The guards, the other way round *)

(** X6. [isApplicable] throws only in the case of its guard: a thrown
    error means that a service directory is active and that one of the four
    options is present, and the error is the one tagged
    [NOT_APPLICABLE_SERVICE_OPTIONS]; with no such option present it never
    throws, whatever the service directory. *)
Theorem isApplicable_throws_only_guarded ctx e :
  isApplicable ctx = Thrown e →
  truthy (serviceDir ctx) = true
  ∧ (∃ key, key ∈ notApplicableOptions ∧ is_Some (options ctx !! key))
  ∧ e = ServerlessError NOT_APPLICABLE_MESSAGE "NOT_APPLICABLE_SERVICE_OPTIONS".
Proof.
  unfold isApplicable.
  destruct (truthy (serviceDir ctx)); [|done].
  destruct (existsb _ _) eqn:Hsome; [|done]. cbn [andb].
  intros [= <-]. split; [done|]. split; [|done]. by apply some_notApplicable.
Qed.

(** *** The picker and the confirmation *)

Lemma picked_among name (choices : list string) :
  choices ≠ [] → picked env name choices ∈ choices.
Proof.
  intros Hne. unfold picked.
  destruct (Nat.lt_ge_cases (userSelects env name) (length choices)) as [Hlt|Hge].
  - apply list_elem_of_In, nth_In, Hlt.
  - rewrite nth_overflow by done. destruct choices; [done|]. apply list_elem_of_here.
Qed.

(** X7. A project type that comes from the picker is the value of one
    of the entries of [initializeProjectChoices], and it is not [other]; the
    [template] option, when truthy, is taken as it is, with no prompt. *)
Theorem chooseProjectType_result opts st projectType st' :
  chooseProjectType env opts st = (Returned (Some projectType), st') →
  (truthy (opts !! "template") = false →
   projectType ∈ map snd initializeProjectChoices
   ∧ projectType ≠ "other"
   ∧ st' = log (EvPrompt "projectType") st)
  ∧ (truthy (opts !! "template") = true →
     opts !! "template" = Some projectType ∧ st' = st).
Proof.
  unfold chooseProjectType, projectTypeChoice, listPrompt.
  destruct (truthy (opts !! "template")) eqn:Htemplate.
  - intros [= <- <-]. split; [done|]. intros _. split; [|done].
    unfold prop. by destruct (opts !! "template").
  - effects.
    destruct (String.eqb _ "other") eqn:Hother; [done|].
    intros [= <- <-]. split; [|done]. intros _.
    split; [by apply picked_among|]. split; [|done].
    by apply String.eqb_neq.
Qed.

(** X8. When none of the four options is truthy and the user does not
    pick [Yes] at the confirmation, [run] returns at once: the log has gained
    that one prompt, and the context and the file system are as before. *)
Theorem run_declined st :
  (length (templateKeysPresent (options (context st))) ≤ 1)%nat →
  truthy (options (context st) !! "name") = false →
  truthy (options (context st) !! "template-path") = false →
  truthy (options (context st) !! "template") = false →
  truthy (options (context st) !! "template-url") = false →
  picked env "shouldCreateNewProject" ["Yes"; "No"] ≠ "Yes" →
  run env st = (Returned tt, log (EvPrompt "shouldCreateNewProject") st).
Proof.
  intros Hcount Hname Hpath Htemplate Hurl Hno%String.eqb_neq.
  rewrite run_past_guard by done.
  unfold confirmCreation, listPrompt. rewrite Hname, Hpath, Htemplate, Hurl.
  cbn [negb andb]. effects. by rewrite Hno.
Qed.

(** *** The other two sources of a template *)

Lemma confirmCreation_skipped opts st :
  truthy (opts !! "name") || truthy (opts !! "template-path")
  || truthy (opts !! "template") || truthy (opts !! "template-url") = true →
  confirmCreation env opts st = (Returned true, st).
Proof.
  unfold confirmCreation.
  by destruct (truthy (opts !! "name")), (truthy (opts !! "template-path")),
    (truthy (opts !! "template")), (truthy (opts !! "template-url")).
Qed.

(** X9. With a truthy [template-path], [run] asks no confirmation,
    resolves the name and calls the local-template collaborator with the
    given path, the directory of that name under the working directory and
    the name; a failure of that call is thrown as it is, with no wrapping,
    and after a success [run] goes on to the installation in that
    directory. *)
Theorem run_local_template st st1 projectName r fs :
  (length (templateKeysPresent (options (context st))) ≤ 1)%nat →
  truthy (options (context st) !! "template-path") = true →
  resolveProjectNameInput env (options (context st))
    (orElse (cwd (context st)) (processCwd env)) None st = (Returned projectName, st1) →
  createFromLocalTemplate env (prop (options (context st)) "template-path")
    (pathJoin env (orElse (cwd (context st)) (processCwd env)) projectName) projectName
    (fileSystem st1) = (r, fs) →
  let projectDir := pathJoin env (orElse (cwd (context st)) (processCwd env)) projectName in
  let created :=
    setFileSystem fs
      (log
         (EvCreateFromLocalTemplate (prop (options (context st)) "template-path") projectDir
            projectName) st1) in
  (∀ err, r = Rejected err → run env st = (Thrown err, created))
  ∧ (r = Resolved tt →
     run env st
     = bind (installDependencies env projectDir projectName)
         (λ _, finalize env projectDir projectName) created).
Proof.
  intros Hcount Hpath Hname Hcreate projectDir created.
  rewrite run_past_guard by done.
  returns_by ltac:(idtac; apply confirmCreation_skipped;
                   rewrite Hpath, ?orb_true_r; reflexivity).
  cbn [negb]. unfold acquireTemplate. rewrite Hpath.
  returns Hname. fold projectDir.
  split.
  - intros err ->.
    erewrite bind_thrown; [done|].
    unfold call, projectDir. by rewrite Hcreate.
  - intros ->.
    erewrite bind_returned by (unfold call, projectDir; by rewrite Hcreate).
    by erewrite bind_returned by reflexivity.
Qed.

(** X10. With a truthy [template-url] and no truthy [template-path],
    [run] asks no confirmation and shows no picker: it resolves the name,
    writes the status line and asks for the download of the given url with no
    template name; after a success it goes on to the installation in the
    directory of that name under the working directory. *)
Theorem run_url_template st st1 projectName fs :
  (length (templateKeysPresent (options (context st))) ≤ 1)%nat →
  truthy (options (context st) !! "template-path") = false →
  truthy (options (context st) !! "template-url") = true →
  resolveProjectNameInput env (options (context st))
    (orElse (cwd (context st)) (processCwd env)) None st = (Returned projectName, st1) →
  downloadTemplateFromRepo env (prop (options (context st)) "template-url") None projectName
    (fileSystem st1) = (Resolved tt, fs) →
  let projectDir := pathJoin env (orElse (cwd (context st)) (processCwd env)) projectName in
  run env st
  = bind (installDependencies env projectDir projectName)
      (λ _, finalize env projectDir projectName)
      (setFileSystem fs
         (log
            (EvDownloadTemplateFromRepo (prop (options (context st)) "template-url") None
               projectName)
            (log (EvStdout (downloadingFromUrlLine (prop (options (context st)) "template-url")))
               st1))).
Proof.
  intros Hcount Hpath Hurl Hname Hdownload projectDir.
  rewrite run_past_guard by done.
  returns_by ltac:(idtac; apply confirmCreation_skipped;
                   rewrite Hurl, ?orb_true_r; reflexivity).
  cbn [negb]. unfold acquireTemplate. rewrite Hpath, Hurl.
  returns Hname. rewrite bind_stdoutWrite.
  returns_by ltac:(idtac; by apply download_resolved).
  by erewrite bind_returned by reflexivity.
Qed.

(** X11. When a template source is given by option, an explicit name
    that is not acceptable stops [run] before anything is acquired: a name
    that does not match the pattern gives [INVALID_PROJECT_NAME] with the
    state as it was, a name whose path exists gives
    [TARGET_FOLDER_ALREADY_EXISTS] after the one [fsp.access], with the file
    system and the context as they were. *)
Theorem run_explicit_name_rejected st name :
  (length (templateKeysPresent (options (context st))) ≤ 1)%nat →
  options (context st) !! "name" = Some name →
  name ≠ EmptyString →
  truthy (options (context st) !! "template-path") = true
  ∨ truthy (options (context st) !! "template-url") = true
  ∨ truthy (options (context st) !! "template") = true →
  (isValidServiceName name = false →
   run env st
   = (Thrown (ServerlessError INVALID_PROJECT_NAME_MESSAGE "INVALID_PROJECT_NAME"), st))
  ∧ (isValidServiceName name = true →
     pathJoin env (orElse (cwd (context st)) (processCwd env)) name ∈ fileSystem st →
     run env st
     = (Thrown
          (ServerlessError ("Path " +:+ name +:+ " is already taken")
             "TARGET_FOLDER_ALREADY_EXISTS"),
        log (EvAccess (pathJoin env (orElse (cwd (context st)) (processCwd env)) name)) st)).
Proof.
  intros Hcount Hname Hne Hsource.
  rewrite run_past_guard by done.
  returns_by ltac:(idtac; apply confirmCreation_skipped;
                   by rewrite Hname, (truthy_nonempty name Hne)).
  cbn [negb].
  assert (Hnaming : ∀ projectType,
    resolveProjectNameInput env (options (context st))
      (orElse (cwd (context st)) (processCwd env)) projectType st
    = if negb (isValidServiceName name) then (Thrown invalidProjectName, st)
      else if bool_decide
                (pathJoin env (orElse (cwd (context st)) (processCwd env)) name
                 ∈ fileSystem st)
           then (Thrown (targetFolderExists name),
                 log (EvAccess
                        (pathJoin env (orElse (cwd (context st)) (processCwd env)) name)) st)
           else (Returned name,
                 log (EvAccess
                        (pathJoin env (orElse (cwd (context st)) (processCwd env)) name)) st))
    by (intros; by apply resolveProjectNameInput_named).
  assert (Hacquire : ∀ e st',
    (∀ projectType,
       resolveProjectNameInput env (options (context st))
         (orElse (cwd (context st)) (processCwd env)) projectType st = (Thrown e, st')) →
    acquireTemplate env (options (context st))
      (orElse (cwd (context st)) (processCwd env)) st = (Thrown e, st')).
  { intros e st' Hthrown. unfold acquireTemplate, chooseProjectType.
    destruct (truthy (options (context st) !! "template-path")) eqn:Hpath;
      [by erewrite bind_thrown by apply Hthrown|].
    destruct (truthy (options (context st) !! "template-url")) eqn:Hurl;
      [by erewrite bind_thrown by apply Hthrown|].
    destruct Hsource as [?|[?|Htemplate]]; [done..|]. rewrite Htemplate.
    returns_by ltac:(idtac; reflexivity).
    by erewrite bind_thrown by apply Hthrown. }
  split.
  - intros Hvalid. erewrite bind_thrown; [done|]. apply Hacquire.
    intros projectType. by rewrite Hnaming, Hvalid.
  - intros Hvalid Htaken. erewrite bind_thrown; [done|]. apply Hacquire.
    intros projectType. by rewrite Hnaming, Hvalid, (bool_decide_eq_true_2 _ Htaken).
Qed.

(** *** The last part of [run] *)

Lemma unlink_result path st :
  tryCatch (fspUnlink path) (λ _, ret tt) st
  = (Returned tt, setFileSystem (fileSystem st ∖ {[path]}) (log (EvUnlink path) st)).
Proof.
  unfold tryCatch, fspUnlink, bind, emit, ret. cbn [fileSystem log].
  destruct (bool_decide (path ∈ fileSystem st)) eqn:Hin; [done|].
  apply bool_decide_eq_false in Hin.
  unfold setFileSystem. cbn [context fileSystem events log].
  replace (fileSystem st ∖ {[path]}) with (fileSystem st); [done|].
  symmetry. apply difference_disjoint_L. set_solver.
Qed.

Lemma substring_whole (s : string) : String.substring 0 (String.length s) s = s.
Proof. induction s as [|c s IH]; [done|]. cbn. by rewrite IH. Qed.

Lemma length_after_separator (dir : string) (separator : ascii) (file : string) :
  String.length (dir +:+ String separator file) = (String.length dir + 1 + String.length file)%nat.
Proof.
  induction dir as [|c dir IH]; [done|].
  change (String c dir +:+ String separator file)
    with (String c (dir +:+ String separator file)).
  cbn [String.length]. by rewrite IH.
Qed.

Lemma jsSlice_after_separator (dir : string) (separator : ascii) (file : string) :
  jsSlice (String.length dir + 1) (dir +:+ String separator file) = file.
Proof.
  unfold jsSlice. rewrite length_after_separator.
  replace (String.length dir + 1 + String.length file - (String.length dir + 1))%nat
    with (String.length file) by lia.
  induction dir as [|c dir IH]; [apply substring_whole|].
  change (String c dir +:+ String separator file)
    with (String c (dir +:+ String separator file)).
  exact IH.
Qed.

(** [finalize], step by step. *)
Lemma finalize_steps projectDir projectName st :
  let files := fileSystem st ∖ {[pathJoin env projectDir "serverless.template.yml"]} in
  let marked :=
    mapContext (withServiceDir projectDir)
      (log (EvStdout (nl +:+ chalkGreen env (createdLine projectName) +:+ nl))
         (setFileSystem files
            (log (EvUnlink (pathJoin env projectDir "serverless.template.yml")) st))) in
  finalize env projectDir projectName st
  = match resolveConfigurationPath env projectDir files with
    | Rejected err => (Thrown err, log (EvResolveConfigurationPath projectDir) marked)
    | Resolved configurationPath =>
        let named :=
          mapContext
            (withConfigurationFilename
               (jsSlice (String.length projectDir + 1) configurationPath))
            (log (EvResolveConfigurationPath projectDir) marked) in
        match readConfiguration env configurationPath files with
        | Rejected err => (Thrown err, log (EvReadConfiguration configurationPath) named)
        | Resolved loaded =>
            let read :=
              mapContext (withConfiguration loaded)
                (log (EvReadConfiguration configurationPath) named) in
            match resolveVariables env (context read) files with
            | Rejected err => (Thrown err, log EvResolveVariables read)
            | Resolved resolved =>
                (Returned tt,
                 mapContext (withConfiguration resolved) (log EvResolveVariables read))
            end
        end
    end.
Proof.
  intros files marked. unfold finalize.
  returns (unlink_result (pathJoin env projectDir "serverless.template.yml") st).
  rewrite bind_stdoutWrite, bind_setContext, bind_query.
  change (resolveConfigurationPath env projectDir _)
    with (resolveConfigurationPath env projectDir files).
  destruct (resolveConfigurationPath env projectDir files) as [configurationPath|err];
    [|done].
  rewrite bind_setContext, bind_query.
  change (readConfiguration env configurationPath _)
    with (readConfiguration env configurationPath files).
  destruct (readConfiguration env configurationPath files) as [loaded|err]; [|done].
  rewrite bind_setContext, bind_getContext, bind_query.
  unfold marked, files.
  cbv [mapContext withConfiguration withConfigurationFilename withServiceDir log
       setFileSystem context fileSystem events cwd options serviceDir
       configurationFilename configuration].
  match goal with
  | |- context [resolveVariables env ?c ?fs] => destruct (resolveVariables env c fs)
  end; reflexivity.
Qed.

(** X12. The last part of [run] removes the marker file
    [serverless.template.yml] of the project directory and nothing else:
    afterwards the file system is the one before without that path, whether
    the file was there or not and however the loading of the configuration
    ends. *)
Theorem finalize_removes_marker_only projectDir projectName st :
  fileSystem (finalize env projectDir projectName st).2
  = fileSystem st ∖ {[pathJoin env projectDir "serverless.template.yml"]}.
Proof.
  rewrite finalize_steps. cbv zeta.
  destruct (resolveConfigurationPath env projectDir _) as [configurationPath|err]; [|done].
  destruct (readConfiguration env configurationPath _) as [loaded|err]; [|done].
  by destruct (resolveVariables env _ _).
Qed.

(** X13. The context is updated as [run] goes, not at the end: when the
    path of the configuration cannot be resolved, [run] throws that failure
    with [serviceDir] already set and nothing else changed; when the
    configuration cannot be read, it throws that failure with [serviceDir]
    and [configurationFilename] already set and [configuration] as it
    was. *)
Theorem finalize_failure_leaves_partial_context projectDir projectName st err :
  let files := fileSystem st ∖ {[pathJoin env projectDir "serverless.template.yml"]} in
  (resolveConfigurationPath env projectDir files = Rejected err →
   (finalize env projectDir projectName st).1 = Thrown err
   ∧ context (finalize env projectDir projectName st).2
     = withServiceDir projectDir (context st))
  ∧ (∀ configurationPath,
       resolveConfigurationPath env projectDir files = Resolved configurationPath →
       readConfiguration env configurationPath files = Rejected err →
       (finalize env projectDir projectName st).1 = Thrown err
       ∧ context (finalize env projectDir projectName st).2
         = withConfigurationFilename
             (jsSlice (String.length projectDir + 1) configurationPath)
             (withServiceDir projectDir (context st))).
Proof.
  intros files. rewrite finalize_steps. cbv zeta. fold files. split.
  - by intros ->.
  - by intros configurationPath -> ->.
Qed.

(** X14. When the three configuration collaborators resolve, the last
    part of [run] returns with the context filled in: [serviceDir] is the
    project directory, [configurationFilename] is the resolved path from the
    character after the directory and one separator on, [configuration] is
    what the variable resolution yields for the context that holds the
    configuration as read; [cwd] and [options] are as before. *)
Theorem finalize_populates_context projectDir projectName st configurationPath loaded
    resolved :
  let files := fileSystem st ∖ {[pathJoin env projectDir "serverless.template.yml"]} in
  let filename := jsSlice (String.length projectDir + 1) configurationPath in
  resolveConfigurationPath env projectDir files = Resolved configurationPath →
  readConfiguration env configurationPath files = Resolved loaded →
  resolveVariables env
    {| cwd := cwd (context st); options := options (context st);
       serviceDir := Some projectDir; configurationFilename := Some filename;
       configuration := Some loaded |} files = Resolved resolved →
  (finalize env projectDir projectName st).1 = Returned tt
  ∧ context (finalize env projectDir projectName st).2
    = {| cwd := cwd (context st); options := options (context st);
         serviceDir := Some projectDir; configurationFilename := Some filename;
         configuration := Some resolved |}.
Proof.
  intros files filename Hpath Hread Hresolve.
  rewrite finalize_steps. cbv zeta. fold files. rewrite Hpath, Hread.
  change (context (mapContext (withConfiguration loaded) _))
    with {| cwd := cwd (context st); options := options (context st);
            serviceDir := Some projectDir; configurationFilename := Some filename;
            configuration := Some loaded |}.
  by rewrite Hresolve.
Qed.

(** X15. When the configuration path is the project directory, one
    separator character and a file name, [configurationFilename] is set to
    that file name, whether or not the configuration then loads. *)
Theorem finalize_configurationFilename projectDir projectName st separator file :
  resolveConfigurationPath env projectDir
    (fileSystem st ∖ {[pathJoin env projectDir "serverless.template.yml"]})
  = Resolved (projectDir +:+ String separator file) →
  configurationFilename (context (finalize env projectDir projectName st).2) = Some file.
Proof.
  intros Hpath. rewrite finalize_steps. cbv zeta. rewrite Hpath.
  destruct (readConfiguration env _ _) as [loaded|err];
    [destruct (resolveVariables env _ _)|]; cbn; by rewrite jsSlice_after_separator.
Qed.

(** *** What [run] never changes *)

(** X16. However [run] ends, the [cwd] and the [options] of the context
    are the ones it started with. *)
Theorem run_keeps_cwd_and_options st :
  cwd (context (run env st).2) = cwd (context st)
  ∧ options (context (run env st).2) = options (context st).
Proof.
  pose proof (preserves_run (λ st, (cwd (context st), options (context st)))
                (λ _ _, eq_refl) (λ _ _, eq_refl)) as Hkeeps.
  assert (Hpair : (cwd (context (run env st).2), options (context (run env st).2))
                  = (cwd (context st), options (context st))).
  { apply Hkeeps. intros st0 c Hcwd Hoptions. cbn. by rewrite Hcwd, Hoptions. }
  by injection Hpair.
Qed.

(** X17. Until its last part [run] does not touch the context: the
    confirmation, the acquisition of the template and the installation of the
    dependencies leave every field of it as it was, however they end. *)
Theorem context_untouched_before_finalize opts workingDir projectDir projectName st :
  context (confirmCreation env opts st).2 = context st
  ∧ context (acquireTemplate env opts workingDir st).2 = context st
  ∧ context (installDependencies env projectDir projectName st).2 = context st.
Proof.
  split; [|split].
  - by apply (preserves_confirmCreation context).
  - by apply (preserves_acquireTemplate context).
  - by apply (preserves_installDependencies context).
Qed.

End Properties.

(** ** The properties on concrete sessions *)

Lemma isApplicable_guard_witness :
  isApplicable (context (Sample.session Sample.onlyName (Some "/work/app")))
  = Thrown (ServerlessError NOT_APPLICABLE_MESSAGE "NOT_APPLICABLE_SERVICE_OPTIONS")
  ∧ truthy (serviceDir (context (Sample.session Sample.onlyName None))) = false.
Proof.
  split.
  - apply (isApplicable_guard string (context (Sample.session Sample.onlyName (Some "/work/app")))).
    + reflexivity.
    + exists "name". split; [unfold notApplicableOptions; listed | vm_compute; by eexists].
  - apply (proj2 (isApplicable_guard string (context (Sample.session Sample.onlyName None)))
             true); reflexivity.
Defined.

Lemma run_rejects_multiple_template_options_witness :
  run Sample.env (Sample.session Sample.twoSources None)
  = (Thrown
       (ServerlessError MULTIPLE_TEMPLATE_OPTIONS_MESSAGE "MULTIPLE_TEMPLATE_OPTIONS_PROVIDED"),
     Sample.session Sample.twoSources None).
Proof.
  apply (run_rejects_multiple_template_options string Sample.env
           (Sample.session Sample.twoSources None)).
  vm_compute. lia.
Defined.

Lemma run_rejects_empty_template_options_witness :
  run Sample.env (Sample.session Sample.emptyTemplates None)
  = (Thrown
       (ServerlessError MULTIPLE_TEMPLATE_OPTIONS_MESSAGE "MULTIPLE_TEMPLATE_OPTIONS_PROVIDED"),
     Sample.session Sample.emptyTemplates None)
  ∧ truthy (Sample.emptyTemplates !! "template") = false
  ∧ truthy (Sample.emptyTemplates !! "template-url") = false.
Proof.
  destruct (run_rejects_empty_template_options string Sample.env
              (Sample.session Sample.emptyTemplates None)) as (Hthrown & Hfalsy & _).
  - vm_compute. lia.
  - intros key Hkey Hsome. unfold templateOptions in Hkey.
    repeat (apply elem_of_cons in Hkey as [-> | Hkey];
            [first [by vm_compute | vm_compute in Hsome; by destruct Hsome] |]).
    by apply elem_of_nil in Hkey.
  - split; [exact Hthrown|].
    split; apply Hfalsy; unfold templateOptions; listed.
Defined.

(** C5, as stated, fails on the empty name: it does not match the
    pattern, yet the naming step throws nothing; it asks the user, and
    returns what the user types. *)
Lemma explicit_empty_name_is_prompted :
  Sample.emptyName !! "name" = Some EmptyString
  ∧ isValidServiceName EmptyString = false
  ∧ resolveProjectNameInput Sample.env Sample.emptyName "/work" None
      (Sample.session Sample.emptyName None)
    = (Returned "demo1",
       log (EvAccess "/work/demo1")
         (log (EvPrompt "projectName") (Sample.session Sample.emptyName None)))
  ∧ (resolveProjectNameInput Sample.env Sample.emptyName "/work" None
       (Sample.session Sample.emptyName None)).1
    ≠ Thrown (ServerlessError INVALID_PROJECT_NAME_MESSAGE "INVALID_PROJECT_NAME").
Proof. split; [|split; [|split]]; by vm_compute. Qed.

Lemma resolveProjectNameInput_explicit_witness :
  resolveProjectNameInput Sample.env Sample.onlyName "/work" None
    (Sample.session Sample.onlyName None)
  = (Returned "demo1", log (EvAccess "/work/demo1") (Sample.session Sample.onlyName None))
  ∧ resolveProjectNameInput Sample.env Sample.emptyName "/work" (Some "aws-node")
      (Sample.session Sample.emptyName None)
    = projectNameInput Sample.env "/work" (Some "aws-node")
        (Sample.session Sample.emptyName None).
Proof.
  split.
  - apply (proj1 (resolveProjectNameInput_explicit string Sample.env Sample.onlyName "/work"
                    None (Sample.session Sample.onlyName None) "demo1" eq_refl)).
    + discriminate.
    + reflexivity.
    + evaluated.
  - apply (proj1 (proj2 (resolveProjectNameInput_explicit string Sample.env Sample.emptyName
                           "/work" (Some "aws-node") (Sample.session Sample.emptyName None)
                           EmptyString eq_refl))).
    reflexivity.
Defined.

(** C1, as stated, fails both ways: a failure of the download that is a
    [ServerlessError] is not thrown again as it is but wrapped, and a
    failure that is not one is not wrapped but thrown as it is. *)
Lemma structured_download_failure_is_wrapped :
  constructorName Sample.unknownTemplate = "ServerlessError"
  ∧ (run (Sample.world Sample.firstEntry [] (Rejected Sample.unknownTemplate) (Resolved tt))
       (Sample.session Sample.fromUrl None)).1
    = Thrown
        (ServerlessError (invalidTemplateUrlMessage (message Sample.unknownTemplate))
           "INVALID_TEMPLATE_URL")
  ∧ (run (Sample.world Sample.firstEntry [] (Rejected Sample.unknownTemplate) (Resolved tt))
       (Sample.session Sample.fromUrl None)).1
    ≠ Thrown Sample.unknownTemplate
  ∧ constructorName Sample.networkDown ≠ "ServerlessError"
  ∧ (run (Sample.world Sample.firstEntry [] (Rejected Sample.networkDown) (Resolved tt))
       (Sample.session Sample.fromUrl None)).1
    = Thrown Sample.networkDown
  ∧ (run (Sample.world Sample.firstEntry [] (Rejected Sample.unknownTemplate) (Resolved tt))
       (Sample.session Sample.fromTemplate None)).1
    = Thrown
        (ServerlessError (templateDownloadFailedMessage (message Sample.unknownTemplate))
           "TEMPLATE_DOWNLOAD_FAILED").
Proof. repeat (split; [by vm_compute|]). by vm_compute. Qed.

Lemma run_download_failure_witness :
  (run (Sample.world Sample.firstEntry [] (Rejected Sample.networkDown) (Resolved tt))
     (Sample.session Sample.fromUrl None)).1
  = Thrown Sample.networkDown
  ∧ (run (Sample.world Sample.firstEntry [] (Rejected Sample.unknownTemplate) (Resolved tt))
       (Sample.session Sample.fromTemplate None)).1
    = Thrown
        (ServerlessError (templateDownloadFailedMessage (message Sample.unknownTemplate))
           "TEMPLATE_DOWNLOAD_FAILED").
Proof.
  split.
  - destruct (run_download_failure string
                (Sample.world Sample.firstEntry [] (Rejected Sample.networkDown) (Resolved tt))
                (Sample.session Sample.fromUrl None)) as [Hurl _].
    + vm_compute. lia.
    + by vm_compute.
    + apply (Hurl (log (EvAccess "/work/demo1") (Sample.session Sample.fromUrl None))
               "demo1" Sample.networkDown ∅).
      * by vm_compute.
      * by vm_compute.
      * by vm_compute.
      * discriminate.
  - destruct (run_download_failure string
                (Sample.world Sample.firstEntry [] (Rejected Sample.unknownTemplate) (Resolved tt))
                (Sample.session Sample.fromTemplate None)) as [_ Hnamed].
    + vm_compute. lia.
    + by vm_compute.
    + apply (Hnamed (Sample.session Sample.fromTemplate None)
               (Sample.session Sample.fromTemplate None)
               (log (EvAccess "/work/demo1") (Sample.session Sample.fromTemplate None))
               "aws-node" "demo1" Sample.unknownTemplate ∅).
      * by vm_compute.
      * by vm_compute.
      * by vm_compute.
      * by vm_compute.
      * by vm_compute.
      * intros [Hcode _]. discriminate.
      * reflexivity.
Defined.

Lemma run_named_template_not_found_witness :
  (run (Sample.world Sample.firstEntry [] (Rejected Sample.missingTemplate) (Resolved tt))
     (Sample.session Sample.fromTemplate None)).1
  = Thrown (ServerlessError INVALID_TEMPLATE_MESSAGE "INVALID_TEMPLATE")
  ∧ ∃ e,
      (run (Sample.world Sample.firstEntry [] (Rejected Sample.missingTemplate) (Resolved tt))
         (Sample.session Sample.onlyName None)).1 = Thrown e
      ∧ code e ≠ Some "INVALID_TEMPLATE".
Proof.
  split.
  - apply (run_named_template_not_found string
             (Sample.world Sample.firstEntry [] (Rejected Sample.missingTemplate) (Resolved tt))
             (Sample.session Sample.fromTemplate None)
             (Sample.session Sample.fromTemplate None)
             (Sample.session Sample.fromTemplate None)
             (log (EvAccess "/work/demo1") (Sample.session Sample.fromTemplate None))
             "aws-node" "demo1" Sample.missingTemplate ∅);
      first [by vm_compute | vm_compute; lia].
  - apply (run_named_template_not_found string
             (Sample.world Sample.firstEntry [] (Rejected Sample.missingTemplate) (Resolved tt))
             (Sample.session Sample.onlyName None)
             (Sample.session Sample.onlyName None)
             (log (EvPrompt "projectType") (Sample.session Sample.onlyName None))
             (log (EvAccess "/work/demo1")
                (log (EvPrompt "projectType") (Sample.session Sample.onlyName None)))
             "aws-node" "demo1" Sample.missingTemplate ∅);
      first [by vm_compute | vm_compute; lia].
Defined.

Lemma sample_configurationLoads pick lines download install :
  configurationLoads (Sample.world pick lines download install).
Proof. repeat split; intros; by eexists. Qed.

Lemma run_installs_dependencies_witness :
  (run (Sample.world Sample.firstEntry [] (Resolved tt) (Rejected Sample.notFound))
     (Sample.session Sample.fromTemplate None)).1
  = Returned tt
  ∧ (run (Sample.world Sample.firstEntry [] (Resolved tt) (Rejected Sample.exitCode1))
       (Sample.session Sample.fromTemplate None)).1
    = Thrown
        (ServerlessError ("Cannot install dependencies: " +:+ message Sample.exitCode1)
           "DEPENDENCIES_INSTALL_FAILED").
Proof.
  split.
  - destruct (run_installs_dependencies string
                (Sample.world Sample.firstEntry [] (Resolved tt) (Rejected Sample.notFound))
                (Sample.session Sample.fromTemplate None)
                (Sample.session Sample.fromTemplate None)
                Sample.downloaded "/work/demo1" "demo1") as [Hpresent _].
    + evaluated.
    + evaluated.
    + evaluated.
    + destruct (Hpresent ltac:(evaluated) (Rejected Sample.notFound)
                  (Sample.materialize "demo1" ∅) ltac:(evaluated))
        as (_ & _ & Hmissing & _).
      destruct (Hmissing Sample.notFound eq_refl eq_refl) as [_ Hreturns].
      apply Hreturns, sample_configurationLoads.
  - destruct (run_installs_dependencies string
                (Sample.world Sample.firstEntry [] (Resolved tt) (Rejected Sample.exitCode1))
                (Sample.session Sample.fromTemplate None)
                (Sample.session Sample.fromTemplate None)
                Sample.downloaded "/work/demo1" "demo1") as [Hpresent _].
    + evaluated.
    + evaluated.
    + evaluated.
    + destruct (Hpresent ltac:(evaluated) (Rejected Sample.exitCode1)
                  (Sample.materialize "demo1" ∅) ltac:(evaluated))
        as (_ & _ & _ & Hfails).
      by rewrite (Hfails Sample.exitCode1 eq_refl ltac:(discriminate)).
Defined.



Lemma run_other_is_noop_witness :
  run (Sample.world Sample.picksOther [] (Resolved tt) (Resolved tt)) (Sample.session ∅ None)
  = (Returned tt,
     {| context := context (Sample.session ∅ None);
        fileSystem := ∅;
        events :=
          [EvPrompt "shouldCreateNewProject"; EvPrompt "projectType"; EvStdout OTHER_HINT] |}).
Proof.
  apply (run_other_is_noop string
           (Sample.world Sample.picksOther [] (Resolved tt) (Resolved tt))
           (Sample.session ∅ None)); evaluated.
Defined.

(** The two naming paths on the same padded name: given by the [name]
    option it is refused; typed at the prompt it is trimmed, and the project
    is created as [demo]. *)
Lemma padded_name_on_both_paths :
  (run Sample.env (Sample.session Sample.paddedName None)).1
  = Thrown (ServerlessError INVALID_PROJECT_NAME_MESSAGE "INVALID_PROJECT_NAME")
  ∧ (run (Sample.world Sample.firstEntry [" demo "] (Resolved tt) (Resolved tt))
       (Sample.session ∅ None)).1 = Returned tt
  ∧ serviceDir
      (context
         (run (Sample.world Sample.firstEntry [" demo "] (Resolved tt) (Resolved tt))
            (Sample.session ∅ None)).2)
    = Some "/work/demo".
Proof. split; [|split]; by vm_compute. Qed.

(** ** The further properties on concrete sessions *)

Lemma isValidServiceName_shape_witness :
  (1 ≤ String.length "demo1" ≤ 101)%nat
  ∧ allChars isNameChar "demo1" = true
  ∧ trim "demo1" = "demo1".
Proof. apply (isValidServiceName_shape "demo1"). reflexivity. Defined.

Lemma naming_returns_valid_free_name_witness :
  isValidServiceName "demo1" = true
  ∧ ("/work/demo1" ∉ fileSystem (Sample.session Sample.onlyName None))
  ∧ fileSystem (log (EvAccess "/work/demo1") (Sample.session Sample.onlyName None))
    = fileSystem (Sample.session Sample.onlyName None)
  ∧ context (log (EvAccess "/work/demo1") (Sample.session Sample.onlyName None))
    = context (Sample.session Sample.onlyName None).
Proof.
  apply (naming_returns_valid_free_name string Sample.env Sample.onlyName "/work" None
           (Sample.session Sample.onlyName None) "demo1"
           (log (EvAccess "/work/demo1") (Sample.session Sample.onlyName None))).
  reflexivity.
Defined.

Lemma projectNameInput_asks_again_witness :
  projectNameInput (Sample.world Sample.firstEntry ["1abc"; "demo1"] (Resolved tt) (Resolved tt))
    "/work" (Some "aws-node") (Sample.session ∅ None)
  = remainingAttempts
      (Sample.world Sample.firstEntry ["1abc"; "demo1"] (Resolved tt) (Resolved tt))
      "/work" None [typed "demo1"]
      (log (EvPromptRejected "projectName" INVALID_PROJECT_NAME_MESSAGE)
         (log (EvPrompt "projectName") (Sample.session ∅ None)))
  ∧ projectNameInput
      (Sample.world Sample.firstEntry ["demo1"; "demo2"] (Resolved tt) (Resolved tt))
      "/work" None (Sample.occupied ∅)
    = remainingAttempts
        (Sample.world Sample.firstEntry ["demo1"; "demo2"] (Resolved tt) (Resolved tt))
        "/work" None [typed "demo2"]
        (log (EvPromptRejected "projectName" (pathTakenMessage "demo1"))
           (log (EvAccess "/work/demo1") (log (EvPrompt "projectName") (Sample.occupied ∅)))).
Proof.
  split.
  - apply (proj1 (projectNameInput_asks_again string
                    (Sample.world Sample.firstEntry ["1abc"; "demo1"] (Resolved tt) (Resolved tt))
                    "/work" (Some "aws-node") (Sample.session ∅ None) (typed "1abc")
                    [typed "demo1"] eq_refl ltac:(discriminate))).
    reflexivity.
  - apply (proj2 (projectNameInput_asks_again string
                    (Sample.world Sample.firstEntry ["demo1"; "demo2"] (Resolved tt) (Resolved tt))
                    "/work" None (Sample.occupied ∅) (typed "demo1") [typed "demo2"]
                    eq_refl ltac:(discriminate)));
      [reflexivity | evaluated].
Defined.

Lemma projectNameInput_empty_line_witness :
  projectNameInput (Sample.terminal Sample.firstEntry [enterAlone] (Resolved tt) (Resolved tt))
    "/work" (Some "aws-node") (Sample.session ∅ None)
  = (Returned "aws-node-project",
     log (EvAccess "/work/aws-node-project")
       (log (EvPrompt "projectName") (Sample.session ∅ None)))
  ∧ (projectNameInput
       (Sample.world Sample.firstEntry ["1abc"; EmptyString] (Resolved tt) (Resolved tt))
       "/work" (Some "aws-node") (Sample.session ∅ None)).1
    = Pending.
Proof.
  split.
  - apply (proj1 (projectNameInput_empty_line string
                    (Sample.terminal Sample.firstEntry [enterAlone] (Resolved tt) (Resolved tt))
                    "/work" (Sample.session ∅ None)) "aws-node" [] eq_refl);
      [discriminate | reflexivity | evaluated].
  - rewrite (proj2 (proj2 (projectNameInput_empty_line string
                    (Sample.world Sample.firstEntry ["1abc"; EmptyString] (Resolved tt)
                       (Resolved tt))
                    "/work" (Sample.session ∅ None)))
               (Some "aws-node") (typed "1abc") (typed EmptyString) []
               eq_refl eq_refl eq_refl eq_refl).
    reflexivity.
Defined.

Lemma projectNameInput_trims_witness :
  projectNameInput
    (Sample.world Sample.firstEntry [nbsp +:+ " demo" +:+ nbsp] (Resolved tt) (Resolved tt))
    "/work" None (Sample.session ∅ None)
  = (Returned "demo",
     log (EvAccess "/work/demo") (log (EvPrompt "projectName") (Sample.session ∅ None))).
Proof.
  apply (projectNameInput_trims string
           (Sample.world Sample.firstEntry [nbsp +:+ " demo" +:+ nbsp] (Resolved tt)
              (Resolved tt))
           "/work" None (Sample.session ∅ None) (typed (nbsp +:+ " demo" +:+ nbsp)) []);
    [reflexivity | discriminate | reflexivity | evaluated].
Defined.

Lemma isApplicable_throws_only_guarded_witness :
  truthy (Some "/work/app") = true
  ∧ (∃ key, key ∈ notApplicableOptions ∧ is_Some (Sample.onlyName !! key))
  ∧ ServerlessError NOT_APPLICABLE_MESSAGE "NOT_APPLICABLE_SERVICE_OPTIONS"
    = ServerlessError NOT_APPLICABLE_MESSAGE "NOT_APPLICABLE_SERVICE_OPTIONS".
Proof.
  apply (isApplicable_throws_only_guarded string
           (context (Sample.session Sample.onlyName (Some "/work/app")))).
  reflexivity.
Defined.

Lemma chooseProjectType_result_witness :
  "aws-node" ∈ map snd initializeProjectChoices
  ∧ "aws-node" ≠ "other"
  ∧ log (EvPrompt "projectType") (Sample.session ∅ None)
    = log (EvPrompt "projectType") (Sample.session ∅ None).
Proof.
  apply (chooseProjectType_result string Sample.env ∅ (Sample.session ∅ None) "aws-node"
           (log (EvPrompt "projectType") (Sample.session ∅ None)));
    reflexivity.
Defined.

Lemma run_declined_witness :
  run (Sample.world Sample.secondEntry [] (Resolved tt) (Resolved tt)) (Sample.session ∅ None)
  = (Returned tt, log (EvPrompt "shouldCreateNewProject") (Sample.session ∅ None)).
Proof.
  apply (run_declined string
           (Sample.world Sample.secondEntry [] (Resolved tt) (Resolved tt))
           (Sample.session ∅ None));
    first [reflexivity | discriminate | evaluated].
Defined.

Lemma run_local_template_witness :
  run Sample.env (Sample.session Sample.fromLocalPath None)
  = bind (installDependencies Sample.env "/work/demo1" "demo1")
      (λ _, finalize Sample.env "/work/demo1" "demo1")
      (setFileSystem (Sample.materialize "demo1" ∅)
         (log (EvCreateFromLocalTemplate "/templates/starter" "/work/demo1" "demo1")
            (log (EvAccess "/work/demo1") (Sample.session Sample.fromLocalPath None)))).
Proof.
  apply (run_local_template string Sample.env (Sample.session Sample.fromLocalPath None)
           (log (EvAccess "/work/demo1") (Sample.session Sample.fromLocalPath None))
           "demo1" (Resolved tt) (Sample.materialize "demo1" ∅));
    first [reflexivity | evaluated].
Defined.

Lemma run_url_template_witness :
  run Sample.env (Sample.session Sample.fromUrl None)
  = bind (installDependencies Sample.env "/work/demo1" "demo1")
      (λ _, finalize Sample.env "/work/demo1" "demo1")
      (setFileSystem (Sample.materialize "demo1" ∅)
         (log (EvDownloadTemplateFromRepo "https://github.com/acme/starter" None "demo1")
            (log (EvStdout (downloadingFromUrlLine "https://github.com/acme/starter"))
               (log (EvAccess "/work/demo1") (Sample.session Sample.fromUrl None))))).
Proof.
  apply (run_url_template string Sample.env (Sample.session Sample.fromUrl None)
           (log (EvAccess "/work/demo1") (Sample.session Sample.fromUrl None))
           "demo1" (Sample.materialize "demo1" ∅));
    first [reflexivity | evaluated].
Defined.

Lemma run_explicit_name_rejected_witness :
  run Sample.env (Sample.session Sample.badName None)
  = (Thrown (ServerlessError INVALID_PROJECT_NAME_MESSAGE "INVALID_PROJECT_NAME"),
     Sample.session Sample.badName None)
  ∧ run Sample.env (Sample.occupied Sample.fromTemplate)
    = (Thrown
         (ServerlessError ("Path " +:+ "demo1" +:+ " is already taken")
            "TARGET_FOLDER_ALREADY_EXISTS"),
       log (EvAccess "/work/demo1") (Sample.occupied Sample.fromTemplate)).
Proof.
  split.
  - apply (run_explicit_name_rejected string Sample.env (Sample.session Sample.badName None)
             "1abc");
      [evaluated | reflexivity | discriminate | right; right; reflexivity | reflexivity].
  - apply (run_explicit_name_rejected string Sample.env (Sample.occupied Sample.fromTemplate)
             "demo1");
      [evaluated | reflexivity | discriminate | right; right; reflexivity | reflexivity
      | evaluated].
Defined.

Lemma finalize_failure_leaves_partial_context_witness :
  (finalize Sample.withoutConfiguration "/work/demo1" "demo1" Sample.downloaded).1
  = Thrown Sample.noConfigurationFile
  ∧ context (finalize Sample.withoutConfiguration "/work/demo1" "demo1" Sample.downloaded).2
    = withServiceDir "/work/demo1" (context Sample.downloaded).
Proof.
  apply (finalize_failure_leaves_partial_context string Sample.withoutConfiguration
           "/work/demo1" "demo1" Sample.downloaded Sample.noConfigurationFile).
  reflexivity.
Defined.

Lemma finalize_populates_context_witness :
  (finalize Sample.env "/work/demo1" "demo1" Sample.downloaded).1 = Returned tt
  ∧ context (finalize Sample.env "/work/demo1" "demo1" Sample.downloaded).2
    = {| cwd := None; options := Sample.fromTemplate; serviceDir := Some "/work/demo1";
         configurationFilename := Some "serverless.yml";
         configuration := Some "service: /work/demo1/serverless.yml" |}.
Proof.
  apply (finalize_populates_context string Sample.env "/work/demo1" "demo1" Sample.downloaded
           "/work/demo1/serverless.yml" "service: /work/demo1/serverless.yml"
           "service: /work/demo1/serverless.yml"); reflexivity.
Defined.

Lemma finalize_configurationFilename_witness :
  configurationFilename
    (context (finalize Sample.env "/work/demo1" "demo1" Sample.downloaded).2)
  = Some "serverless.yml".
Proof.
  apply (finalize_configurationFilename string Sample.env "/work/demo1" "demo1"
           Sample.downloaded "/"%char "serverless.yml").
  reflexivity.
Defined.
